(** * Bookmarks REST API: a shallow embedding of the route handlers

    Sources embedded here:
    - [src/unnamed/part_001]: the express router (GET, POST, PATCH, DELETE),
      [explodeRequestQuery] and [chechGuidExistence];
    - [src/unnamed/part_000]: the sequelize model definition of [bookmarks];
    - [src/src/validators/bookmarks.js]: the constraints on [link].

    The npm packages the handlers call (express, sequelize, validate.js,
    uuid) are not part of the repository.  The ORM and the identifier
    generator are taken as parameters; the parts of express and validate.js
    that the handlers' control flow depends on are written out and marked as
    such. *)

From Stdlib Require Import String Ascii List ZArith Bool Lia DecimalString.
Import ListNotations.
Local Open Scope string_scope.
Local Open Scope Z_scope.

(** ** JavaScript values *)

(** Errors that travel through [throw] and promise rejection. *)
Inductive JsError : Type :=
  | TypeError (msg : string)
  | HeadersSentError
  | StoreError (msg : string).

(** The settled state of a promise. *)
Inductive Settled (A : Type) : Type :=
  | Fulfilled (a : A)
  | Rejected (e : JsError).
Arguments Fulfilled {A} a.
Arguments Rejected {A} e.

(** Numbers are the integers the program handles (counts, limits, epoch
    milliseconds); strings are sequences of code units below 256.  An object
    is the list of its own enumerable properties in enumeration order, which
    is what [Object.entries] returns; keys are distinct. *)
#[local] Set Warnings "-register-all".
Inductive JsValue : Type :=
  | JUndefined
  | JNull
  | JBool (b : bool)
  | JNum (n : Z)
  | JStr (s : string)
  | JObj (props : list (string * JsValue))
  | JArr (elems : list JsValue)
  | JPromise (state : Settled JsValue).

Definition JsObject : Type := list (string * JsValue).

(** ToBoolean.  Every object is truthy, a promise included. *)
Definition truthy (v : JsValue) : bool :=
  match v with
  | JUndefined | JNull => false
  | JBool b => b
  | JNum n => negb (n =? 0)
  | JStr s => negb (s =? "")%string
  | JObj _ | JArr _ | JPromise _ => true
  end.

(** [a || b] *)
Definition js_or (a b : JsValue) : JsValue := if truthy a then a else b.

(** Own-property lookup. *)
Fixpoint lookup (o : JsObject) (k : string) : option JsValue :=
  match o with
  | [] => None
  | (k', v) :: rest => if (k' =? k)%string then Some v else lookup rest k
  end.

(** [o.hasOwnProperty(k)] *)
Definition hasOwnProperty (o : JsObject) (k : string) : bool :=
  match lookup o k with Some _ => true | None => false end.

(** Replace the value of an existing own property, keeping its position. *)
Fixpoint replace_prop (o : JsObject) (k : string) (v : JsValue) : JsObject :=
  match o with
  | [] => []
  | (k', v') :: rest =>
      if (k' =? k)%string then (k', v) :: rest else (k', v') :: replace_prop rest k v
  end.

(** [o[k] = v] on an ordinary object.  The key [__proto__] reaches the
    accessor inherited from [Object.prototype] and creates no own property. *)
Definition set_prop (o : JsObject) (k : string) (v : JsValue) : JsObject :=
  if (k =? "__proto__")%string then o
  else if hasOwnProperty o k then replace_prop o k v
  else (o ++ [(k, v)])%list.

(** [Object.assign(target, source)]: every own property of [source] is
    assigned on [target], in order.  The result is [target] itself. *)
Definition object_assign (target source : JsObject) : JsObject :=
  fold_left (fun t kv => set_prop t (fst kv) (snd kv)) source target.

(** Completion of a statement or expression: a value, or a thrown error. *)
Inductive Completion (A : Type) : Type :=
  | Normal (a : A)
  | Throw (e : JsError).
Arguments Normal {A} a.
Arguments Throw {A} e.

(** [v.k] and [v[k]].  Reading a property of [undefined] or [null] throws;
    on a primitive, which has no own property of interest here, the read
    gives [undefined]. *)
Definition get_prop (v : JsValue) (k : string) : Completion JsValue :=
  match v with
  | JUndefined =>
      Throw (TypeError ("Cannot read property '" ++ k ++ "' of undefined"))
  | JNull =>
      Throw (TypeError ("Cannot read property '" ++ k ++ "' of null"))
  | JObj o => Normal (match lookup o k with Some x => x | None => JUndefined end)
  | _ => Normal JUndefined
  end.

(** [v[i]] for a numeric index. *)
Definition get_index (v : JsValue) (i : nat) : Completion JsValue :=
  match v with
  | JUndefined => Throw (TypeError "Cannot read property of undefined")
  | JNull => Throw (TypeError "Cannot read property of null")
  | JArr l => Normal (nth i l JUndefined)
  | _ => Normal JUndefined
  end.

(** [body.k] for a body that is an object. *)
Definition field (o : JsObject) (k : string) : JsValue :=
  match lookup o k with Some x => x | None => JUndefined end.

(** [ToPropertyKey(v)], the conversion [v in obj] and [obj[v]] apply to a
    key that is not a string.  Values here are data, as parsed from JSON, so
    no property is callable.  An object with an own [toString] has no usable
    [toString]; [valueOf] then gives the object back, and the conversion
    throws.  Any other object converts with [Object.prototype.toString].  An
    array converts with [join]: its elements converted in order, [null] and
    [undefined] as the empty string, separated by commas.  An integer below
    10^21 in magnitude is written in decimal. *)
Fixpoint to_property_key (v : JsValue) : Completion string :=
  match v with
  | JUndefined => Normal "undefined"
  | JNull => Normal "null"
  | JBool b => Normal (if b then "true" else "false")
  | JNum n => Normal (NilZero.string_of_int (Z.to_int n))
  | JStr s => Normal s
  | JObj props =>
      if hasOwnProperty props "toString"
      then Throw (TypeError "Cannot convert object to primitive value")
      else Normal "[object Object]"
  | JArr elems =>
      (fix join (l : list JsValue) : Completion string :=
         match l with
         | [] => Normal ""
         | e :: rest =>
             match
               match e with
               | JUndefined | JNull => Normal ""
               | _ => to_property_key e
               end
             with
             | Throw err => Throw err
             | Normal first =>
                 match rest with
                 | [] => Normal first
                 | _ :: _ =>
                     match join rest with
                     | Throw err => Throw err
                     | Normal others => Normal (first ++ "," ++ others)
                     end
                 end
             end
         end) elems
  | JPromise _ => Normal "[object Promise]"
  end.

(** ** Regular expressions

    [validate.js] tests a link against a pattern it compiles with
    [new RegExp(source, "i")].  The pattern has no back-references, so
    whether [exec] finds a match is a question about a regular language; it
    is decided here with derivatives.  A negative lookahead [(?!x)r] is the
    intersection of [r] with the complement of [x] followed by anything. *)
Module Regex.

Inductive re : Type :=
  | Void
  | Eps
  | Class (negated : bool) (ranges : list (nat * nat))
  | Cat (r s : re)
  | Alt (r s : re)
  | Star (r : re)
  | And (r s : re)
  | Not (r : re).

Definition in_ranges (ranges : list (nat * nat)) (c : nat) : bool :=
  existsb (fun lh => Nat.leb (fst lh) c && Nat.leb c (snd lh)) ranges.

(** Case folding of flag [i] on the code units below 256: ASCII letters and
    the Latin-1 letters that have their other case below 256. *)
Definition other_case (c : nat) : nat :=
  if (Nat.leb 65 c && Nat.leb c 90) || (Nat.leb 192 c && Nat.leb c 222 && negb (Nat.eqb c 215))
  then (c + 32)%nat
  else if (Nat.leb 97 c && Nat.leb c 122) || (Nat.leb 224 c && Nat.leb c 254 && negb (Nat.eqb c 247))
  then (c - 32)%nat
  else c.

Definition class_matches (negated : bool) (ranges : list (nat * nat)) (a : ascii) : bool :=
  let c := nat_of_ascii a in
  xorb negated (in_ranges ranges c || in_ranges ranges (other_case c)).

Fixpoint nullable (r : re) : bool :=
  match r with
  | Void => false
  | Eps => true
  | Class _ _ => false
  | Cat r s => nullable r && nullable s
  | Alt r s => nullable r || nullable s
  | Star _ => true
  | And r s => nullable r && nullable s
  | Not r => negb (nullable r)
  end.

(** Constructors that absorb [Void] and [Eps]; they keep derivatives small
    and do not change the language. *)
Definition cat (r s : re) : re :=
  match r, s with
  | Void, _ | _, Void => Void
  | Eps, _ => s
  | _, Eps => r
  | _, _ => Cat r s
  end.

Definition alt (r s : re) : re :=
  match r, s with
  | Void, _ => s
  | _, Void => r
  | _, _ => Alt r s
  end.

Definition and_ (r s : re) : re :=
  match r, s with
  | Void, _ | _, Void => Void
  | _, _ => And r s
  end.

Fixpoint deriv (a : ascii) (r : re) : re :=
  match r with
  | Void | Eps => Void
  | Class n rs => if class_matches n rs a then Eps else Void
  | Cat r s =>
      if nullable r then alt (cat (deriv a r) s) (deriv a s) else cat (deriv a r) s
  | Alt r s => alt (deriv a r) (deriv a s)
  | Star r => cat (deriv a r) (Star r)
  | And r s => and_ (deriv a r) (deriv a s)
  | Not r => Not (deriv a r)
  end.

(** [^r$] matches the whole of [s]. *)
Fixpoint matches (r : re) (s : string) : bool :=
  match s with
  | EmptyString => nullable r
  | String a s' => matches (deriv a r) s'
  end.

(** Pattern syntax. *)
Definition chr (a : ascii) : re := Class false [(nat_of_ascii a, nat_of_ascii a)].
Definition any : re := Class true [].
Definition plus (r : re) : re := Cat r (Star r).
Definition opt (r : re) : re := Alt r Eps.
Definition lit (s : string) : re :=
  fold_right (fun a r => cat (chr a) r) Eps (list_ascii_of_string s).
Definition alts (rs : list re) : re := fold_right Alt Void rs.
Definition cats (rs : list re) : re := fold_right Cat Eps rs.
(** [r{n}] *)
Fixpoint times (n : nat) (r : re) : re :=
  match n with O => Eps | S n' => Cat r (times n' r) end.
(** [r{0,n}] *)
Fixpoint upto (n : nat) (r : re) : re :=
  match n with O => Eps | S n' => opt (Cat r (upto n' r)) end.
(** [r{m,n}] with [n = m + k] *)
Definition between (m k : nat) (r : re) : re := Cat (times m r) (upto k r).
(** [r{m,}] *)
Definition at_least (m : nat) (r : re) : re := Cat (times m r) (Star r).
(** [(?!x)r] *)
Definition not_followed_by (x r : re) : re := And r (Not (Cat x (Star any))).

(** [.]: any code unit but a line terminator. *)
Definition dot : re := Class true [(10, 10); (13, 13)]%nat.
(** [\d] *)
Definition digit : re := Class false [(48, 57)]%nat.
(** [\S]: any code unit but white space (tab, LF, VT, FF, CR, space, NBSP). *)
Definition nonspace : re := Class true [(9, 13); (32, 32); (160, 160)]%nat.

End Regex.

(** ** validate.js

    [import validate from 'validate.js'] (part_001, line 4).  The package is
    not in the repository; this module writes out what [validate] does with
    the three validators that [bookmarkLinkConstraints] names, after
    validate.js 0.12 and 0.13, the releases current when the handlers were
    written: [presence] rejects [null] and [undefined] only, every other
    validator lets an undefined value pass, and a message that is not a
    string is reported as it is.  A validator that throws ends [validate]
    with that error.  The attributes are those of a plain object: a body
    that validate.js would take for a form (a string field [jquery], or
    truthy fields [querySelector] and [querySelectorAll]) is outside this
    model. *)
Module ValidateJs.
Import Regex.

(** One entry of a constraints object.  [schemes] are pattern sources, given
    here as parsed patterns. *)
Inductive Validator : Type :=
  | presence (options : bool)
  | url (schemes : list re) (message : JsValue)
  | exclusion (within : JsObject) (message : JsValue).

Definition isDefined (v : JsValue) : bool :=
  match v with JUndefined | JNull => false | _ => true end.

(** [[a-z\u00a1-\uffff0-9]] and [[a-z\u00a1-\uffff]] on code units below 256 *)
Definition host_char : re := Class false [(97, 122); (161, 255); (48, 57)]%nat.
Definition tld_char : re := Class false [(97, 122); (161, 255)]%nat.
Definition range (lo hi : ascii) : re :=
  Class false [(nat_of_ascii lo, nat_of_ascii hi)].

(** [(?:\.\d{1,3}){n}] *)
Definition dotted_octets (n : nat) : re :=
  times n (Cat (chr ".") (between 1 2 digit)).

(** The three lookaheads that exclude private and local networks. *)
Definition private_10_127 : re :=
  Cat (Alt (lit "10") (lit "127")) (dotted_octets 3).
Definition private_169_192 : re :=
  Cat (Alt (lit "169.254") (lit "192.168")) (dotted_octets 2).
Definition private_172 : re :=
  cats [lit "172.";
        alts [Cat (chr "1") (range "6" "9"); Cat (chr "2") digit;
              Cat (chr "3") (range "0" "1")];
        dotted_octets 2].

(** IP address, dotted notation. *)
Definition ip_address : re :=
  cats [alts [Cat (range "1" "9") (opt digit);
              cats [chr "1"; digit; digit];
              cats [chr "2"; range "0" "1"; digit];
              cats [lit "22"; range "0" "3"]];
        times 2 (Cat (chr ".")
                     (alts [Cat (opt (chr "1")) (between 1 1 digit);
                            cats [chr "2"; range "0" "4"; digit];
                            cats [lit "25"; range "0" "5"]]));
        Cat (chr ".")
            (alts [Cat (range "1" "9") (opt digit);
                   cats [chr "1"; digit; digit];
                   cats [chr "2"; range "0" "4"; digit];
                   cats [lit "25"; range "0" "4"]])].

(** A label: [(?:[a-z\u00a1-\uffff0-9]-{0,})*[a-z\u00a1-\uffff0-9]+],
    with [-{0,}] for the star after the hyphen. *)
Definition label : re :=
  Cat (Star (Cat host_char (Star (chr "-")))) (plus host_char).

(** Host name, domain name and top-level domain. *)
Definition host_name : re :=
  cats [label;
        Star (Cat (chr ".") label);
        Cat (chr ".") (at_least 2 tld_char)].

(** Port number and resource path. *)
Definition port_and_path : re :=
  Cat (opt (Cat (chr ":") (between 2 3 digit)))
      (opt (Cat (Class false [(47, 47); (63, 63); (35, 35)]%nat) (Star nonspace))).

(** The pattern [validators.url] builds, with [allowLocal] and
    [allowDataUrl] unset as in the constraints of this program:
    scheme and [://], optional [user:password@], then either an IP address
    guarded by the three lookaheads or a host name, then an optional port of
    two to five digits and an optional path, query or fragment without
    white space, anchored at both ends. *)
Definition url_pattern (schemes : list re) : re :=
  cats [Cat (alts schemes) (lit "://");
        opt (cats [plus nonspace; opt (Cat (chr ":") (Star nonspace)); chr "@"]);
        Alt (not_followed_by private_10_127
              (not_followed_by private_169_192
                (not_followed_by private_172 (Cat ip_address port_and_path))))
            (Cat host_name port_and_path)].

Definition presence_validator (options : bool) (value : JsValue) : option JsValue :=
  if negb (isDefined value) then Some (JStr "can't be blank") else None.

Definition url_validator (schemes : list re) (message value : JsValue)
  : option JsValue :=
  if negb (isDefined value) then None
  else match value with
       | JStr s => if matches (url_pattern schemes) s then None else Some message
       | _ => Some message
       end.

(** Names [Object.prototype] defines; [k in obj] is true of them for every
    ordinary object. *)
Definition object_prototype_keys : list string :=
  ["constructor"; "__defineGetter__"; "__defineSetter__"; "hasOwnProperty";
   "__lookupGetter__"; "__lookupSetter__"; "isPrototypeOf";
   "propertyIsEnumerable"; "toString"; "valueOf"; "__proto__";
   "toLocaleString"].

(** [k in obj] for a key that is a string and an ordinary object. *)
Definition has_key (obj : JsObject) (k : string) : bool :=
  hasOwnProperty obj k || existsb (String.eqb k) object_prototype_keys.

(** [v.contains(obj, value)] for an object: [value in obj].  The value is
    first converted to a property key, which can throw. *)
Definition contains (obj : JsObject) (value : JsValue) : Completion bool :=
  match to_property_key value with
  | Normal k => Normal (has_key obj k)
  | Throw e => Throw e
  end.

Definition exclusion_validator (within : JsObject) (message value : JsValue)
  : Completion (option JsValue) :=
  if negb (isDefined value) then Normal None
  else match contains within value with
       | Throw e => Throw e
       | Normal found => Normal (if negb found then None else Some message)
       end.

Definition run_validator (v : Validator) (value : JsValue)
  : Completion (option JsValue) :=
  match v with
  | presence options =>
      Normal (if options then presence_validator options value else None)
  | url schemes message => Normal (url_validator schemes message value)
  | exclusion within message => exclusion_validator within message value
  end.

Definition capitalize (s : string) : string :=
  match s with
  | EmptyString => EmptyString
  | String a rest =>
      let c := nat_of_ascii a in
      String (if Nat.leb 97 c && Nat.leb c 122 then ascii_of_nat (c - 32) else a) rest
  end.

(** [convertErrorMessages]: a string message is prefixed with the
    capitalised attribute name; any other message is kept as it is. *)
Definition convert_error (attribute : string) (error : JsValue) : JsValue :=
  match error with
  | JStr msg => JStr (capitalize attribute ++ " " ++ msg)
  | _ => error
  end.

(** The errors of one attribute, in the order of its validators; the first
    validator that throws ends the run. *)
Fixpoint attribute_errors (attribute : string) (vs : list Validator)
    (value : JsValue) : Completion (list JsValue) :=
  match vs with
  | [] => Normal []
  | v :: rest =>
      match run_validator v value with
      | Throw e => Throw e
      | Normal r =>
          match attribute_errors attribute rest value with
          | Throw e => Throw e
          | Normal errors =>
              Normal match r with
                     | Some e => convert_error attribute e :: errors
                     | None => errors
                     end
          end
      end
  end.

Fixpoint grouped (attributes : JsObject) (constraints : list (string * list Validator))
  : Completion JsObject :=
  match constraints with
  | [] => Normal []
  | (attribute, vs) :: rest =>
      match attribute_errors attribute vs (field attributes attribute) with
      | Throw e => Throw e
      | Normal errors =>
          match grouped attributes rest with
          | Throw e => Throw e
          | Normal others =>
              Normal match errors with
                     | [] => others
                     | _ :: _ => (attribute, JArr errors) :: others
                     end
          end
      end
  end.

(** [validate(attributes, constraints)]: [undefined] when every validator
    passes, else the errors grouped by attribute; the error of a validator
    that throws. *)
Definition validate (attributes : JsObject)
    (constraints : list (string * list Validator)) : Completion JsValue :=
  match grouped attributes constraints with
  | Throw e => Throw e
  | Normal [] => Normal JUndefined
  | Normal errors => Normal (JObj errors)
  end.

End ValidateJs.

(** ** src/validators/bookmarks.js *)

Definition bookmarkLinkConstraints : list ValidateJs.Validator :=
  [ ValidateJs.presence true;
    ValidateJs.url [Regex.plus Regex.dot]
      (JObj [("code", JStr "BOOKMARKS_INVALID_LINK");
             ("description", JStr "Link invalid")]);
    ValidateJs.exclusion
      [("http://yahoo.com", JStr "Yahoo");
       ("https://yahoo.com", JStr "Yahoo");
       ("http://socket.io", JStr "Socket.io");
       ("https://socket.io", JStr "Socket.io")]
      (JObj [("code", JStr "BOOKMARKS_BLOCKED_DOMAIN");
             ("description", JStr "Link is banned")]) ].

(** [validate(body, {link: bookmarkLinkConstraints})], the call both POST and
    PATCH make. *)
Definition validate_link (body : JsObject) : Completion JsValue :=
  ValidateJs.validate body [("link", bookmarkLinkConstraints)].

Definition url_shaped (s : string) : bool :=
  Regex.matches (ValidateJs.url_pattern [Regex.plus Regex.dot]) s.

(** ** sequelize: the persistence interface

    [models.bookmarks] is a sequelize model.  Its five methods return
    promises; each takes the option objects the handlers build.  [findAll]
    and [count] read the store, the other three also change it.  [count]
    resolves to a number. *)
Class Orm (DB : Type) : Type := {
  findAll : JsValue -> DB -> Settled JsValue;
  count : JsValue -> DB -> Settled Z;
  create : JsValue -> DB -> Settled JsValue * DB;
  update : JsValue -> JsValue -> DB -> Settled JsValue * DB;
  destroy : JsValue -> DB -> Settled JsValue * DB
}.

(** ** Program state and the handler monad *)

(** The object literal bound to [defaultQueryParams] when the module loads. *)
Definition initial_defaultQueryParams : JsObject :=
  [("limit", JNum 50); ("offset", JNum 0);
   ("sort_by", JStr "createdAt"); ("sort_dir", JStr "asc")].

(** What a handler can read and write: the module-level object
    [defaultQueryParams], the external store, the clock behind [Date.now()],
    the response object of the request and the console.  [res_calls] lists
    every [res.status(c).json(b)] call in order; the first one is the
    response the client receives. *)
Record State (DB : Type) : Type := mkState {
  defaultQueryParams : JsObject;
  db : DB;
  clock : Z;
  res_calls : list (Z * JsValue);
  console : list JsError
}.
Arguments mkState {DB}.
Arguments defaultQueryParams {DB}.
Arguments db {DB}.
Arguments clock {DB}.
Arguments res_calls {DB}.
Arguments console {DB}.

(** The response delivered to the client, if any. *)
Definition response {DB} (st : State DB) : option (Z * JsValue) :=
  hd_error (res_calls st).

Record Request : Type := mkRequest {
  query : JsObject;
  body : JsObject;
  params_guid : string
}.

(** State passing with exceptions; a throw keeps the state reached so far. *)
Definition M (DB A : Type) : Type := State DB -> Completion A * State DB.

Definition ret {DB A} (a : A) : M DB A := fun st => (Normal a, st).

Definition bind {DB A B} (m : M DB A) (k : A -> M DB B) : M DB B :=
  fun st =>
    match m st with
    | (Normal a, st') => k a st'
    | (Throw e, st') => (Throw e, st')
    end.

Notation "x <- m ;; k" := (bind m (fun x => k))
  (at level 61, m at next level, right associativity).
Notation "m ;; k" := (bind m (fun _ => k))
  (at level 61, right associativity).

(** [try { m } catch (error) { handler }] *)
Definition try_catch {DB A} (m : M DB A) (handler : JsError -> M DB A) : M DB A :=
  fun st =>
    match m st with
    | (Normal a, st') => (Normal a, st')
    | (Throw e, st') => handler e st'
    end.

Definition lift {DB A} (c : Completion A) : M DB A := fun st => (c, st).

(** [await] on a promise of the store: its value, or its rejection thrown. *)
Definition settle {A} (p : Settled A) : Completion A :=
  match p with Fulfilled a => Normal a | Rejected e => Throw e end.

Definition await_read {DB A} (op : DB -> Settled A) : M DB A :=
  fun st => (settle (op (db st)), st).

Definition await_write {DB A} (op : DB -> Settled A * DB) : M DB A :=
  fun st =>
    let (p, d) := op (db st) in
    (settle p,
     mkState (defaultQueryParams st) d (clock st) (res_calls st) (console st)).

(** [Date.now()] *)
Definition date_now {DB} : M DB Z := fun st => (Normal (clock st), st).

(** [console.log(error)] *)
Definition console_log {DB} (e : JsError) : M DB unit :=
  fun st =>
    (Normal tt,
     mkState (defaultQueryParams st) (db st) (clock st) (res_calls st)
             (console st ++ [e])).

(** express: [res.status(code).json(body)].  The first call sends the
    response; a later call on the same response object throws, the headers
    being already sent. *)
Definition res_status_json {DB} (code : Z) (b : JsValue) : M DB unit :=
  fun st =>
    let st' := mkState (defaultQueryParams st) (db st) (clock st)
                       (res_calls st ++ [(code, b)]) (console st) in
    match res_calls st with
    | [] => (Normal tt, st')
    | _ :: _ => (Throw HeadersSentError, st')
    end.

(** [if (c) { m }] *)
Definition when {DB} (c : bool) (m : M DB unit) : M DB unit :=
  if c then m else ret tt.

(** ** part_001: helpers *)

(** A [for (... of items)] loop whose body may [return]. *)
Inductive LoopStep (S R : Type) : Type :=
  | Continue (s : S)
  | Return (r : R).
Arguments Continue {S R} s.
Arguments Return {S R} r.

Fixpoint for_of {A S R} (items : list A) (body : A -> S -> LoopStep S R) (s : S)
  : LoopStep S R :=
  match items with
  | [] => Continue s
  | x :: rest =>
      match body x s with
      | Continue s' => for_of rest body s'
      | Return r => Return r
      end
  end.

(** [explodeRequestQuery(obj)] (lines 402-421).  The [return] statement is
    the last statement of the loop body; when the loop body never runs the
    function ends without a [return] and the call gives [undefined]. *)
Definition explodeRequestQuery (defaults obj : JsObject) : JsValue :=
  match
    for_of obj
      (fun (entry : string * JsValue) (buckets : JsObject * JsObject) =>
         let (key, param) := entry in
         let (queryParams, whereClause) := buckets in
         let (queryParams', whereClause') :=
           if hasOwnProperty defaults key
           then (set_prop queryParams key param, whereClause)
           else (queryParams, set_prop whereClause key param) in
         Return (JObj [("query", JObj queryParams'); ("where", JObj whereClause')]))
      ([], [])
  with
  | Return r => r
  | Continue _ => JUndefined
  end.

(** [promise.then(callback)] for a callback that does not throw. *)
Definition then_ {A B} (p : Settled A) (callback : A -> B) : Settled B :=
  match p with
  | Fulfilled a => Fulfilled (callback a)
  | Rejected e => Rejected e
  end.

Section Handlers.

Context {DB : Type} {orm : Orm DB}.

(** [chechGuidExistence(guid)] (lines 434-448): the settled state of the
    promise the async function returns.  The body is one expression
    statement, an [await] whose value is dropped; the function then ends
    without a [return]. *)
Definition chechGuidExistence (guid : string) (d : DB) : Settled JsValue :=
  match
    then_ (count (JObj [("where", JObj [("guid", JStr guid)])]) d)
          (fun count => if count =? 0 then JBool false else JBool true)
  with
  | Fulfilled _ => Fulfilled JUndefined
  | Rejected e => Rejected e
  end.

(** A call of the async function without [await]: the value is the promise. *)
Definition call_chechGuidExistence (guid : string) : M DB JsValue :=
  fun st => (Normal (JPromise (chechGuidExistence guid (db st))), st).

(** [Object.assign(defaultQueryParams, queryParams)]: the target is the
    module-level object; the call returns that same object. *)
Definition assign_defaultQueryParams (queryParams : JsValue) : M DB JsObject :=
  fun st =>
    let target :=
      match queryParams with
      | JObj source => object_assign (defaultQueryParams st) source
      | _ => defaultQueryParams st
      end in
    (Normal target,
     mkState target (db st) (clock st) (res_calls st) (console st)).

Definition read_defaultQueryParams : M DB JsObject :=
  fun st => (Normal (defaultQueryParams st), st).

(** ** part_001: the four handlers *)

Definition findAll_options (queryParams : JsObject) (whereClause : JsValue) : JsValue :=
  JObj [("where", whereClause);
        ("order", JArr [JArr [field queryParams "sort_by"; field queryParams "sort_dir"]]);
        ("offset", field queryParams "offset");
        ("limit", field queryParams "limit")].

Definition count_options (whereClause : JsValue) : JsValue :=
  JObj [("where", whereClause)].

(** The [try] statement of the list handler (lines 67-100). *)
Definition router_get_try (queryParams : JsObject) (whereClause : JsValue) : M DB unit :=
  try_catch
    (data <- await_read (findAll (findAll_options queryParams whereClause)) ;;
     amount <- await_read (count (count_options whereClause)) ;;
     let result := JObj [("length", JNum amount); ("data", data)] in
     when (amount =? 0)
       (res_status_json 401
          (JObj [("errors",
                  JObj [("bookmarks", JStr "No bookmark found with this query!")])])) ;;
     when (negb (truthy data) && negb (amount =? 0))
       (res_status_json 400
          (JObj [("errors", JObj [("backend", JStr "Bad order request!")])])) ;;
     res_status_json 200 result)
    (fun error =>
       console_log error ;;
       res_status_json 400
         (JObj [("errors", JObj [("backend", JArr [JStr "Can't get bookmarks"])])])).

(** [router.get("/", ...)] (lines 59-102) *)
Definition router_get (req : Request) : M DB JsValue :=
  defaults <- read_defaultQueryParams ;;
  let explodedRequestQuery := explodeRequestQuery defaults (query req) in
  queryParams <- lift (get_prop explodedRequestQuery "query") ;;
  whereClause <- lift (get_prop explodedRequestQuery "where") ;;
  queryParams <- assign_defaultQueryParams queryParams ;;
  router_get_try queryParams whereClause ;;
  ret JUndefined.

(** The object passed to [create] (lines 165-173). *)
Definition create_values (b : JsObject) (now : Z) : JsObject :=
  let favorites := js_or (field b "favorites") (JBool false) in
  let description := js_or (field b "description") (JStr "") in
  [("link", field b "link");
   ("description", description);
   ("favorites", favorites);
   ("createdAt", JNum now)].

(** [router.post("/", ...)] (lines 147-200) *)
Definition router_post (req : Request) : M DB JsValue :=
  validationResult <- lift (validate_link (body req)) ;;
  if truthy validationResult then
    errors <- lift (get_prop validationResult "link") ;;
    first <- lift (get_index errors 0) ;;
    res_status_json 400 (JObj [("errors", JObj [("validation", first)])]) ;;
    ret (JNum 0)
  else
    try_catch
      (now <- date_now ;;
       query <- await_write (create (JObj (create_values (body req) now))) ;;
       if negb (truthy query) then
         res_status_json 400
           (JObj [("errors", JObj [("backend", JStr "Can't create bookmark!")])])
       else
         guid <- lift (get_prop query "guid") ;;
         createdAt <- lift (get_prop query "createdAt") ;;
         res_status_json 200
           (JObj [("data", JObj [("guid", guid); ("createdAt", createdAt)])]))
      (fun error =>
         console_log error ;;
         res_status_json 400
           (JObj [("errors", JObj [("backend", JStr "Can't create bookmark!")])])) ;;
    ret JUndefined.

Definition where_guid (guid : string) : JsValue :=
  JObj [("where", JObj [("guid", JStr guid)])].

(** [router.patch("/:guid", ...)] (lines 252-306).  The link check yields
    [Some 0] when it ends the handler with [return 0]. *)
Definition router_patch (req : Request) : M DB JsValue :=
  check <- call_chechGuidExistence (params_guid req) ;;
  when (negb (truthy check))
    (res_status_json 404
       (JObj [("errors",
               JObj [("bookmarks",
                      JStr ("404 Bookmark not found with UUID = " ++ params_guid req))])])) ;;
  returned <-
    (if truthy (field (body req) "link") then
       validationResult <- lift (validate_link (body req)) ;;
       if truthy validationResult then
         errors <- lift (get_prop validationResult "link") ;;
         first <- lift (get_index errors 0) ;;
         res_status_json 400 (JObj [("errors", JObj [("validation", first)])]) ;;
         ret (Some (JNum 0))
       else ret None
     else ret None) ;;
  match returned with
  | Some v => ret v
  | None =>
      try_catch
        (query <- await_write (update (JObj (body req)) (where_guid (params_guid req))) ;;
         if negb (truthy query) then
           res_status_json 400 (JObj [("backend", JStr "Can't patch bookmark!")])
         else
           res_status_json 200 (JObj [("data", JStr "OK")]))
        (fun error =>
           console_log error ;;
           res_status_json 400
             (JObj [("errors", JObj [("backend", JStr "Can't patch bookmark!")])])) ;;
      ret JUndefined
  end.

(** [router.delete("/:guid", ...)] (lines 346-388) *)
Definition router_delete (req : Request) : M DB JsValue :=
  checkGuid <- call_chechGuidExistence (params_guid req) ;;
  if negb (truthy checkGuid) then
    res_status_json 404
      (JObj [("errors",
              JObj [("bookmarks",
                     JStr ("404 Bookmark not found with guid " ++ params_guid req))])]) ;;
    ret (JNum 0)
  else
    try_catch
      (query <- await_write (destroy (where_guid (params_guid req))) ;;
       if negb (truthy query) then
         res_status_json 400
           (JObj [("errors", JObj [("backend", JStr "Can't delete boorkmark!")])])
       else
         res_status_json 200 (JObj [("data", JStr "OK")]))
      (fun error =>
         console_log error ;;
         res_status_json 400
           (JObj [("errors", JObj [("backend", JStr "Can't delete bookmark!")])])) ;;
    ret JUndefined.

End Handlers.

(** ** part_000: the [bookmarks] model *)
Module BookmarksModel.

Inductive DataType : Type :=
  | UUID
  | STRING (length : option nat)
  | INTEGER
  | BOOLEAN.

Record Attribute : Type := mkAttribute {
  allowNull : bool;
  primaryKey : bool;
  type : DataType;
  defaultValue : option JsValue
}.

Section Define.

(** [require('uuid/v4')]: a generator of identifiers, reading and advancing
    a source of randomness [G]. *)
Context {G : Type} (uuid : G -> string * G).

(** The function the module exports (lines 5-38), applied once when the
    models are loaded.  The object literal passed to [sequelize.define] is
    evaluated there: [uuid()] is called at that moment and its result, a
    string, becomes the [defaultValue] of [guid]. *)
Definition define_bookmarks (g : G) : list (string * Attribute) * G :=
  let (id, g') := uuid g in
  ([("guid", mkAttribute false true UUID (Some (JStr id)));
    ("link", mkAttribute false false (STRING (Some 256%nat)) (Some (JStr "")));
    ("createdAt", mkAttribute false false INTEGER None);
    ("updatedAt", mkAttribute true false INTEGER None);
    ("description", mkAttribute true false (STRING None) None);
    ("favorites", mkAttribute false false BOOLEAN (Some (JBool false)))],
   g').

End Define.

(** sequelize, [Model.build(values)]: an attribute the values leave
    undefined takes the [defaultValue] of its definition, used as it is when
    it is not a function; without a default it stays [null]. *)
Definition build (model : list (string * Attribute)) (values : JsObject) : JsObject :=
  map (fun na : string * Attribute =>
         let (name, a) := na in
         (name,
          match field values name with
          | JUndefined =>
              match defaultValue a with Some d => d | None => JNull end
          | v => v
          end))
      model.

End BookmarksModel.

(** ** An in-memory store

    A table kept as the list of its rows, in insertion order, with the
    behaviour of the ORM the handlers rely on: equality filters on known
    columns, a primary key, NOT NULL columns, affected-row counts.  It is
    the store the handlers are run against in the examples below. *)
Module MemoryStore.
Import BookmarksModel.

Record Table : Type := mkTable {
  model : list (string * Attribute);
  rows : list JsObject
}.

(** Equality of column values. *)
Definition value_eqb (a b : JsValue) : bool :=
  match a, b with
  | JNull, JNull => true
  | JBool x, JBool y => Bool.eqb x y
  | JNum x, JNum y => x =? y
  | JStr x, JStr y => (x =? y)%string
  | _, _ => false
  end.

Definition has_column (t : Table) (name : string) : bool :=
  existsb (fun na => (fst na =? name)%string) (model t).

(** The conditions of a [where] object, or an error for an unknown column. *)
Definition where_conditions (t : Table) (options : JsValue) : Settled JsObject :=
  match get_prop options "where" with
  | Normal (JObj conditions) =>
      if forallb (fun kv => has_column t (fst kv)) conditions
      then Fulfilled conditions
      else Rejected (StoreError "column does not exist")
  | Normal JUndefined => Fulfilled []
  | _ => Rejected (StoreError "invalid where clause")
  end.

Definition satisfies (conditions : JsObject) (row : JsObject) : bool :=
  forallb (fun kv => value_eqb (field row (fst kv)) (snd kv)) conditions.

Definition number_of (v : JsValue) : Z :=
  match v with JNum n => n | _ => 0 end.

(** Insertion into a list sorted on a numeric column. *)
Fixpoint insert_by (column : string) (descending : bool) (row : JsObject)
    (sorted : list JsObject) : list JsObject :=
  match sorted with
  | [] => [row]
  | r :: rest =>
      let a := number_of (field row column) in
      let b := number_of (field r column) in
      if (if descending then b <? a else a <? b)
      then row :: r :: rest
      else r :: insert_by column descending row rest
  end.

Definition order_by (column : string) (descending : bool) (l : list JsObject)
  : list JsObject :=
  fold_right (insert_by column descending) [] l.

Definition page (offset limit : JsValue) (l : list JsObject) : list JsObject :=
  let l := match offset with JNum n => skipn (Z.to_nat n) l | _ => l end in
  match limit with JNum n => firstn (Z.to_nat n) l | _ => l end.

Definition store_findAll (options : JsValue) (t : Table) : Settled JsValue :=
  match where_conditions t options with
  | Rejected e => Rejected e
  | Fulfilled conditions =>
      let found := filter (satisfies conditions) (rows t) in
      match get_prop options "order" with
      | Normal (JArr [JArr [JStr column; JStr direction]]) =>
          if has_column t column then
            let sorted := order_by column (direction =? "desc")%string found in
            let offset := match get_prop options "offset" with Normal v => v | _ => JUndefined end in
            let limit := match get_prop options "limit" with Normal v => v | _ => JUndefined end in
            Fulfilled (JArr (map JObj (page offset limit sorted)))
          else Rejected (StoreError "column does not exist")
      | _ => Rejected (StoreError "invalid order")
      end
  end.

Definition store_count (options : JsValue) (t : Table) : Settled Z :=
  match where_conditions t options with
  | Rejected e => Rejected e
  | Fulfilled conditions =>
      Fulfilled (Z.of_nat (List.length (filter (satisfies conditions) (rows t))))
  end.

Definition primary_key (t : Table) : list string :=
  map fst (filter (fun na => primaryKey (snd na)) (model t)).

Definition same_key (t : Table) (a b : JsObject) : bool :=
  forallb (fun k => value_eqb (field a k) (field b k)) (primary_key t).

Definition not_null_ok (t : Table) (row : JsObject) : bool :=
  forallb (fun na : string * Attribute =>
             allowNull (snd na) ||
             match field row (fst na) with JNull | JUndefined => false | _ => true end)
          (model t).

Definition store_create (values : JsValue) (t : Table) : Settled JsValue * Table :=
  match values with
  | JObj vs =>
      let row := build (model t) vs in
      if negb (not_null_ok t row) then
        (Rejected (StoreError "notNull Violation"), t)
      else if existsb (same_key t row) (rows t) then
        (Rejected (StoreError "Validation error: primary key must be unique"), t)
      else (Fulfilled (JObj row), mkTable (model t) (rows t ++ [row]))
  | _ => (Rejected (StoreError "invalid values"), t)
  end.

(** The columns of [values] written over a row. *)
Definition write_row (t : Table) (values row : JsObject) : JsObject :=
  map (fun kv : string * JsValue =>
         match lookup values (fst kv) with
         | Some v => (fst kv, v)
         | None => kv
         end)
      row.

Definition store_update (values options : JsValue) (t : Table)
  : Settled JsValue * Table :=
  match values, where_conditions t options with
  | _, Rejected e => (Rejected e, t)
  | JObj vs, Fulfilled conditions =>
      let affected := List.length (filter (satisfies conditions) (rows t)) in
      (Fulfilled (JArr [JNum (Z.of_nat affected)]),
       mkTable (model t)
               (map (fun row => if satisfies conditions row then write_row t vs row else row)
                    (rows t)))
  | _, Fulfilled _ => (Rejected (StoreError "invalid values"), t)
  end.

Definition store_destroy (options : JsValue) (t : Table) : Settled JsValue * Table :=
  match where_conditions t options with
  | Rejected e => (Rejected e, t)
  | Fulfilled conditions =>
      let affected := List.length (filter (satisfies conditions) (rows t)) in
      (Fulfilled (JNum (Z.of_nat affected)),
       mkTable (model t) (filter (fun row => negb (satisfies conditions row)) (rows t)))
  end.

#[global] Instance memory_orm : Orm Table := {
  findAll := store_findAll;
  count := store_count;
  create := store_create;
  update := store_update;
  destroy := store_destroy
}.

(** A generator that hands out a new identifier on every call. *)
Definition counter_uuid (n : nat) : string * nat :=
  (("00000000-0000-4000-8000-" ++ String.concat "" (repeat "a" n))%string, S n).

(** The program just loaded: the model defined, the table empty, the
    defaults as written in the source, no response sent. *)
Definition loaded (now : Z) : State Table :=
  mkState initial_defaultQueryParams
          (mkTable (fst (define_bookmarks counter_uuid 1%nat)) [])
          now [] [].

(** The state a next request meets: the same program, a new response
    object, the clock moved on. *)
Definition next_request (now : Z) (st : State Table) : State Table :=
  mkState (defaultQueryParams st) (db st) now [] (console st).

End MemoryStore.

(** ** Vocabulary of the statements *)

(** The keys [explodeRequestQuery] routes to the control bucket. *)
Definition control_keys : list string := ["limit"; "offset"; "sort_by"; "sort_dir"].

(** A query-string mapping as the query parser of express hands it to a
    handler: an object, so its keys are distinct, and [__proto__] is never
    one of its own keys. *)
Definition query_mapping (obj : JsObject) : Prop :=
  NoDup (map fst obj) /\ ~ In "__proto__" (map fst obj).

Definition banned_links : list string :=
  ["http://yahoo.com"; "https://yahoo.com"; "http://socket.io"; "https://socket.io"].

(** [validationResult.link[0]], the error a handler reports, for the value
    [validate] returned. *)
Definition first_link_error (validation : Completion JsValue) : Completion JsValue :=
  match validation with
  | Throw e => Throw e
  | Normal validationResult =>
      match get_prop validationResult "link" with
      | Normal errors => get_index errors 0
      | Throw e => Throw e
      end
  end.

(** The [code] of the reported error, when it has one. *)
Definition error_code (validationResult : Completion JsValue) : option string :=
  match first_link_error validationResult with
  | Normal (JObj e) =>
      match lookup e "code" with Some (JStr c) => Some c | _ => None end
  | _ => None
  end.

Definition invalid_link_error : JsValue :=
  JObj [("code", JStr "BOOKMARKS_INVALID_LINK"); ("description", JStr "Link invalid")].

Definition blocked_domain_error : JsValue :=
  JObj [("code", JStr "BOOKMARKS_BLOCKED_DOMAIN"); ("description", JStr "Link is banned")].

Definition ok_200 : Z * JsValue := (200, JObj [("data", JStr "OK")]).

(** What the [try] statement of the patch handler (lines 280-304) leaves
    behind on a fresh response object, given the answer of [update]; used to
    state the runs of the handler. *)
Definition patch_outcome {DB : Type} (st : State DB) (r : Settled JsValue * DB)
  : Completion JsValue * State DB :=
  match r with
  | (Fulfilled q, d') =>
      (Normal JUndefined,
       mkState (defaultQueryParams st) d' (clock st)
         [if truthy q then ok_200
          else (400, JObj [("backend", JStr "Can't patch bookmark!")])]
         (console st))
  | (Rejected e, d') =>
      (Normal JUndefined,
       mkState (defaultQueryParams st) d' (clock st)
         [(400, JObj [("errors", JObj [("backend", JStr "Can't patch bookmark!")])])]
         (console st ++ [e]))
  end.

(** Requests and states of the examples. *)
Module Examples.
Import MemoryStore.

Definition t0 : Z := 1547459442106.

Definition post_example : Request :=
  mkRequest [] [("link", JStr "https://example.com")] "".

(** The store after one successful create. *)
Definition one_bookmark : State Table :=
  next_request (t0 + 100) (snd (router_post post_example (loaded t0))).

Definition the_guid : string := "00000000-0000-4000-8000-a".

(** The in-memory store behind a connection on which every count query
    fails. *)
Definition count_fails_orm : Orm Table := {|
  findAll := store_findAll;
  count := fun _ _ => Rejected (StoreError "connection lost");
  create := store_create;
  update := store_update;
  destroy := store_destroy
|}.

End Examples.

(** ** Vocabulary of the further statements *)

(** [q.k] read off a value that is neither [undefined] nor [null]: the own
    property of an object, [undefined] on anything else. *)
Definition prop_of (q : JsValue) (k : string) : JsValue :=
  match q with
  | JObj o => field o k
  | _ => JUndefined
  end.

(** What one list request does to [defaultQueryParams], read off lines
    61-65 and 402-421: only the first query key counts, and only when the
    defaults own it. *)
Definition defaults_after (defaults qry : JsObject) : JsObject :=
  match qry with
  | [] => defaults
  | (key, param) :: _ =>
      if hasOwnProperty defaults key then set_prop defaults key param else defaults
  end.

(** The state a next request meets: express hands each request a response
    object of its own. *)
Definition fresh_response {DB : Type} (st : State DB) : State DB :=
  mkState (defaultQueryParams st) (db st) (clock st) [] (console st).

(** List requests served one after the other by the same process. *)
Fixpoint serve_lists {DB : Type} {orm : Orm DB} (reqs : list Request) (st : State DB)
  : State DB :=
  match reqs with
  | [] => st
  | req :: rest => serve_lists rest (snd (router_get req (fresh_response st)))
  end.

(** A handler that leaves [defaultQueryParams] as it found it. *)
Definition keeps_defaults {DB A : Type} (m : M DB A) : Prop :=
  forall st, defaultQueryParams (snd (m st)) = defaultQueryParams st.

(** Two ORMs that answer [destroy] and [update] alike; they may differ on
    [count], which the existence check calls. *)
Definition same_writes {DB : Type} (o1 o2 : Orm DB) : Prop :=
  @destroy DB o1 = @destroy DB o2 /\ @update DB o1 = @update DB o2.

(** The [within] object of the [exclusion] constraint. *)
Definition exclusion_within : JsObject :=
  [("http://yahoo.com", JStr "Yahoo"); ("https://yahoo.com", JStr "Yahoo");
   ("http://socket.io", JStr "Socket.io"); ("https://socket.io", JStr "Socket.io")].

(** A link whose conversion to a property key throws: an object with an own
    [toString]. *)
Definition unconvertible_link : JsValue := JObj [("toString", JNum 1)].

Definition cant_get_bookmarks : JsValue :=
  JObj [("errors", JObj [("backend", JArr [JStr "Can't get bookmarks"])])].

Definition cant_create_bookmark : JsValue :=
  JObj [("errors", JObj [("backend", JStr "Can't create bookmark!")])].

(** Strings without white space, the [\S] of the url pattern. *)
Definition no_white_space (p : string) : Prop :=
  Forall (fun a => Regex.class_matches true [(9, 13); (32, 32); (160, 160)]%nat a = true)
         (list_ascii_of_string p).

(** The pattern left after a prefix has been read. *)
Definition derivs (r : Regex.re) (prefix : string) : Regex.re :=
  fold_left (fun r a => Regex.deriv a r) (list_ascii_of_string prefix) r.

(** The alternatives of a pattern, through nested [Alt]. *)
Fixpoint alternatives (r : Regex.re) : list Regex.re :=
  match r with
  | Regex.Alt r s => alternatives r ++ alternatives s
  | _ => [r]
  end.

(** ** Proof steps shared by the handler lemmas *)

(** Open the monad operations a handler is written with. *)
Ltac open_handler :=
  unfold try_catch, bind, await_write, await_read, when, res_status_json,
    console_log, date_now, lift, ret, settle; simpl.

(** Split on what a writing store call answered, on a fresh response. *)
Ltac by_store_answer Hres :=
  match goal with
  | |- context [match ?op with (_, _) => _ end] =>
      destruct op as [[?q|?e] ?d]; simpl; rewrite Hres;
      [destruct (truthy _)|]; reflexivity
  end.

(** ** Properties of objects *)

Lemma hasOwnProperty_In (o : JsObject) (k : string) :
  hasOwnProperty o k = true <-> In k (map fst o).
Proof.
  unfold hasOwnProperty.
  induction o as [|[k' v] o IH]; simpl.
  - split; [discriminate | tauto].
  - destruct (String.eqb_spec k' k) as [->|Hne].
    + split; auto.
    + rewrite IH. split; [auto | intros [H|H]; [congruence | exact H]].
Qed.

Lemma replace_prop_keys (o : JsObject) (k : string) (v : JsValue) :
  map fst (replace_prop o k v) = map fst o.
Proof.
  induction o as [|[k' v'] o IH]; simpl; [reflexivity|].
  destruct (k' =? k)%string; simpl; [reflexivity | now rewrite IH].
Qed.

Lemma set_prop_empty (k : string) (v : JsValue) :
  k <> "__proto__" -> set_prop [] k v = [(k, v)].
Proof.
  intros Hk. unfold set_prop.
  destruct (String.eqb_spec k "__proto__"); [contradiction | reflexivity].
Qed.

(** Assigning a key the object already owns leaves its key list alone. *)
Lemma set_prop_own_keys (o : JsObject) (k : string) (v : JsValue) :
  hasOwnProperty o k = true -> map fst (set_prop o k v) = map fst o.
Proof.
  intros H. unfold set_prop.
  destruct (k =? "__proto__")%string; [reflexivity|].
  rewrite H. apply replace_prop_keys.
Qed.

(** The control bucket [explodeRequestQuery] returns holds at most the first
    key, and only when the defaults own it. *)
Lemma explodeRequestQuery_shape (defaults obj : JsObject) :
  explodeRequestQuery defaults obj = JUndefined /\ obj = [] \/
  exists key param rest queryParams whereClause,
    obj = (key, param) :: rest /\
    explodeRequestQuery defaults obj =
      JObj [("query", JObj queryParams); ("where", JObj whereClause)] /\
    (queryParams = [] \/ queryParams = [(key, param)] /\ hasOwnProperty defaults key = true).
Proof.
  destruct obj as [|[key param] rest]; [left; split; reflexivity|].
  right. exists key, param, rest.
  unfold explodeRequestQuery; simpl.
  destruct (hasOwnProperty defaults key) eqn:Hown.
  - exists (set_prop [] key param), [].
    repeat split.
    unfold set_prop. destruct (key =? "__proto__")%string; [now left | right; now split].
  - exists [], (set_prop [] key param). repeat split. now left.
Qed.

(** The [try] statement of the list handler does not touch
    [defaultQueryParams]. *)
Lemma router_get_try_keeps_defaults {DB : Type} {orm : Orm DB}
    (queryParams : JsObject) (whereClause : JsValue) (st : State DB) :
  defaultQueryParams (snd (router_get_try queryParams whereClause st)) =
  defaultQueryParams st.
Proof.
  unfold router_get_try, bind, try_catch, await_read, when, res_status_json,
    console_log, ret, settle; simpl.
  destruct (findAll _ (db st)) as [data|e]; simpl;
    [destruct (count _ (db st)) as [amount|e]; simpl;
     [destruct (amount =? 0); destruct (truthy data); simpl|]|];
    destruct (res_calls st); reflexivity.
Qed.

(** The key list of [defaultQueryParams] is the same after any list
    request, whatever the store answers: only values are overwritten. *)
Lemma router_get_keeps_default_keys {DB : Type} {orm : Orm DB}
    (req : Request) (st : State DB) :
  map fst (defaultQueryParams (snd (router_get req st))) =
  map fst (defaultQueryParams st).
Proof.
  unfold router_get, bind, read_defaultQueryParams, lift,
    assign_defaultQueryParams, ret.
  destruct (explodeRequestQuery_shape (defaultQueryParams st) (query req))
    as [[-> _]|(key & param & rest & qp & wc & _ & -> & Hqp)]; simpl; [reflexivity|].
  match goal with
  | |- context [router_get_try ?q ?w ?s] =>
      pose proof (router_get_try_keeps_defaults q w s) as Hkeep;
      destruct (router_get_try q w s) as [[u|e] st']
  end; simpl in *; rewrite Hkeep;
    (destruct Hqp as [->|[-> Hown]]; simpl; [reflexivity | now apply set_prop_own_keys]).
Qed.

(** ** The query splitter *)

(** C1.  For every non-empty query-string mapping, [explodeRequestQuery]
    handles the first key/value pair only: that key goes to the control
    bucket when it is one of [limit], [offset], [sort_by], [sort_dir] and to
    the filter bucket otherwise, and no remaining key of the input is in
    either returned bucket. *)
Theorem explodeRequestQuery_first_pair_only
    (defaults : JsObject) (key : string) (param : JsValue) (rest : JsObject) :
  map fst defaults = control_keys ->
  query_mapping ((key, param) :: rest) ->
  exists queryParams whereClause,
    explodeRequestQuery defaults ((key, param) :: rest) =
      JObj [("query", JObj queryParams); ("where", JObj whereClause)] /\
    (In key control_keys -> queryParams = [(key, param)] /\ whereClause = []) /\
    (~ In key control_keys -> queryParams = [] /\ whereClause = [(key, param)]) /\
    (forall k, In k (map fst rest) ->
               hasOwnProperty queryParams k = false /\
               hasOwnProperty whereClause k = false).
Proof.
  intros Hdefaults [Hnodup Hproto].
  simpl in Hnodup, Hproto.
  assert (Hkey : key <> "__proto__") by (intros ->; apply Hproto; now left).
  assert (Hfresh : forall k, In k (map fst rest) -> (key =? k)%string = false).
  { intros k Hk. apply String.eqb_neq. intros ->. inversion Hnodup; contradiction. }
  unfold explodeRequestQuery; simpl.
  destruct (hasOwnProperty defaults key) eqn:Hown.
  - apply hasOwnProperty_In in Hown. rewrite Hdefaults in Hown.
    exists [(key, param)], []. rewrite (set_prop_empty _ _ Hkey).
    split; [reflexivity|]. split; [intros _; split; reflexivity|].
    split; [intros Hn; contradiction|].
    intros k Hk. unfold hasOwnProperty; simpl. now rewrite (Hfresh k Hk).
  - assert (Hnot : ~ In key control_keys).
    { rewrite <- Hdefaults, <- hasOwnProperty_In, Hown. discriminate. }
    exists [], [(key, param)]. rewrite (set_prop_empty _ _ Hkey).
    split; [reflexivity|]. split; [intros Hi; contradiction|].
    split; [intros _; split; reflexivity|].
    intros k Hk. unfold hasOwnProperty; simpl. now rewrite (Hfresh k Hk).
Qed.

Lemma explodeRequestQuery_first_pair_only_witness :
  exists queryParams whereClause,
    explodeRequestQuery initial_defaultQueryParams
      [("limit", JStr "5"); ("link", JStr "https://ya.ru"); ("offset", JStr "10")] =
      JObj [("query", JObj queryParams); ("where", JObj whereClause)] /\
    (In "limit" control_keys -> queryParams = [("limit", JStr "5")] /\ whereClause = []) /\
    (~ In "limit" control_keys -> queryParams = [] /\ whereClause = [("limit", JStr "5")]) /\
    (forall k, In k ["link"; "offset"] ->
               hasOwnProperty queryParams k = false /\
               hasOwnProperty whereClause k = false).
Proof.
  apply (explodeRequestQuery_first_pair_only initial_defaultQueryParams
           "limit" (JStr "5") [("link", JStr "https://ya.ru"); ("offset", JStr "10")]).
  - reflexivity.
  - split; simpl.
    + repeat constructor; simpl; intuition discriminate.
    + intuition discriminate.
Defined.

(** ** The list handler without query parameters *)

(** C2.  What the code does on [GET /] with an empty query: the splitter
    gives [undefined], reading [.query] of it throws outside the [try]
    statement, and the handler ends there.  No response is sent (neither
    200 nor any other), the store is not queried and the state is as it
    was. *)
Theorem router_get_without_query_throws {DB : Type} {orm : Orm DB}
    (b : JsObject) (guid : string) (st : State DB) :
  explodeRequestQuery (defaultQueryParams st) [] = JUndefined /\
  router_get (mkRequest [] b guid) st =
    (Throw (TypeError "Cannot read property 'query' of undefined"), st).
Proof. split; reflexivity. Qed.

(** The same on the in-memory store holding one bookmark: the client gets no
    response. *)
Example router_get_without_query_no_response :
  response (snd (router_get (mkRequest [] [] "") Examples.one_bookmark)) = None.
Proof. reflexivity. Qed.

(** ** The existence check *)

Lemma promise_is_truthy (p : Settled JsValue) : truthy (JPromise p) = true.
Proof. reflexivity. Qed.

(** C3.  For every identifier, whatever number the count resolves to,
    [chechGuidExistence] resolves to [undefined]: the boolean computed from
    the count is the value of the awaited expression and is dropped, so a
    caller that awaits the function receives [undefined]. *)
Theorem chechGuidExistence_resolves_undefined {DB : Type} {orm : Orm DB}
    (guid : string) (d : DB) (n : Z) :
  count (JObj [("where", JObj [("guid", JStr guid)])]) d = Fulfilled n ->
  chechGuidExistence guid d = Fulfilled JUndefined /\
  settle (chechGuidExistence guid d) = Normal JUndefined.
Proof.
  intros Hcount. unfold chechGuidExistence. rewrite Hcount. split; reflexivity.
Qed.

Lemma chechGuidExistence_resolves_undefined_witness :
  chechGuidExistence Examples.the_guid (db Examples.one_bookmark) = Fulfilled JUndefined /\
  settle (chechGuidExistence Examples.the_guid (db Examples.one_bookmark)) =
    Normal JUndefined.
Proof.
  apply (chechGuidExistence_resolves_undefined
           Examples.the_guid (db Examples.one_bookmark) 1).
  vm_compute. reflexivity.
Defined.

(** Whenever the check resolves at all, it resolves to [undefined]; when the
    count is rejected, so is the check. *)
Lemma chechGuidExistence_never_a_boolean {DB : Type} {orm : Orm DB}
    (guid : string) (d : DB) (v : JsValue) :
  chechGuidExistence guid d = Fulfilled v -> v = JUndefined.
Proof.
  unfold chechGuidExistence, then_.
  destruct (count _ d); intros H; inversion H; reflexivity.
Qed.

(** ** DELETE and PATCH: what the guard does *)

(** A run of the delete handler on a fresh response object: the guard
    passes, [destroy] is called, and its outcome decides the response. *)
Lemma router_delete_run {DB : Type} {orm : Orm DB} (req : Request) (st : State DB) :
  res_calls st = [] ->
  router_delete req st =
    match destroy (where_guid (params_guid req)) (db st) with
    | (Fulfilled q, d') =>
        (Normal JUndefined,
         mkState (defaultQueryParams st) d' (clock st)
           [if truthy q then ok_200
            else (400, JObj [("errors",
                              JObj [("backend", JStr "Can't delete boorkmark!")])])]
           (console st))
    | (Rejected e, d') =>
        (Normal JUndefined,
         mkState (defaultQueryParams st) d' (clock st)
           [(400, JObj [("errors", JObj [("backend", JStr "Can't delete bookmark!")])])]
           (console st ++ [e]))
    end.
Proof.
  intros Hres.
  unfold router_delete, call_chechGuidExistence. open_handler.
  by_store_answer Hres.
Qed.

(** A run of the patch handler on a fresh response object: the guard passes;
    a truthy link is validated; an error thrown by [validate] ends the
    handler; unless validation fails, [update] is called with the whole
    body. *)
Lemma router_patch_run {DB : Type} {orm : Orm DB} (req : Request) (st : State DB) :
  res_calls st = [] ->
  router_patch req st =
    if truthy (field (body req) "link") then
      match validate_link (body req) with
      | Throw e => (Throw e, st)
      | Normal validationResult =>
          if truthy validationResult then
            match first_link_error (Normal validationResult) with
            | Normal first =>
                (Normal (JNum 0),
                 mkState (defaultQueryParams st) (db st) (clock st)
                   [(400, JObj [("errors", JObj [("validation", first)])])]
                   (console st))
            | Throw e => (Throw e, st)
            end
          else
            patch_outcome st
              (update (JObj (body req)) (where_guid (params_guid req)) (db st))
      end
    else
      patch_outcome st (update (JObj (body req)) (where_guid (params_guid req)) (db st)).
Proof.
  intros Hres.
  unfold router_patch, bind, call_chechGuidExistence, when, ret; simpl.
  destruct (truthy (field (body req) "link")); simpl.
  - unfold lift. destruct (validate_link (body req)) as [v|e]; simpl; [|reflexivity].
    destruct (truthy v); simpl.
    + unfold res_status_json.
      destruct (get_prop v "link") as [errors|e]; simpl; [|reflexivity].
      destruct (get_index errors 0) as [first|e]; simpl; [|reflexivity].
      rewrite Hres. reflexivity.
    + unfold patch_outcome. open_handler. by_store_answer Hres.
  - unfold patch_outcome. open_handler. by_store_answer Hres.
Qed.

(** C4, as stated, fails.  On a store that holds the bookmark, [DELETE] with
    its guid does not answer 404: the guard sees a promise, which is truthy,
    the row is destroyed and the answer is 200. *)
Lemma delete_existing_is_not_404 :
  let req := mkRequest [] [] Examples.the_guid in
  let st' := snd (router_delete req Examples.one_bookmark) in
  MemoryStore.rows (db Examples.one_bookmark) <> [] /\
  response st' = Some ok_200 /\
  MemoryStore.rows (db st') = [] /\
  ~ (exists b, response st' = Some (404, b)).
Proof.
  vm_compute. repeat split; try discriminate.
  intros [b H]; discriminate.
Qed.

(** C4, amended.  The handlers call the existence check without awaiting it
    and receive a promise, which is truthy.  So no [DELETE /:guid] request
    takes the not-found branch: none answers 404, and each one performs the
    [destroy] call, whether or not a record with that guid exists; no
    [PATCH /:guid] request answers 404 either. *)
Theorem delete_and_patch_never_404 {DB : Type} {orm : Orm DB}
    (req : Request) (st : State DB) :
  res_calls st = [] ->
  (forall code b, In (code, b) (res_calls (snd (router_delete req st))) -> code <> 404) /\
  db (snd (router_delete req st)) = snd (destroy (where_guid (params_guid req)) (db st)) /\
  (forall code b, In (code, b) (res_calls (snd (router_patch req st))) -> code <> 404).
Proof.
  intros Hres. rewrite (router_delete_run req st Hres), (router_patch_run req st Hres).
  split; [|split].
  - destruct (destroy _ (db st)) as [[q|e] d']; simpl;
      [destruct (truthy q)|]; intros code b [H|[]]; inversion H; discriminate.
  - destruct (destroy _ (db st)) as [[q|e] d']; reflexivity.
  - assert (Hupdate : forall code b,
              In (code, b)
                 (res_calls
                    (snd (patch_outcome st
                            (update (JObj (body req)) (where_guid (params_guid req))
                                    (db st))))) ->
              code <> 404).
    { unfold patch_outcome.
      destruct (update _ _ (db st)) as [[q|e] d']; simpl;
        [destruct (truthy q)|]; intros code b [H|[]]; inversion H; discriminate. }
    destruct (truthy (field (body req) "link")); [|exact Hupdate].
    destruct (validate_link (body req)) as [v|e];
      [|simpl; rewrite Hres; simpl; intros code b []].
    destruct (truthy v); [|exact Hupdate].
    destruct (first_link_error (Normal v)) as [first|e]; simpl.
    + intros code b [H|[]]; inversion H; discriminate.
    + rewrite Hres. simpl. intros code b [].
Qed.

Lemma delete_and_patch_never_404_witness :
  let req := mkRequest [] [("description", JStr "x")] "no-such-guid" in
  let st := Examples.one_bookmark in
  (forall code b, In (code, b) (res_calls (snd (router_delete req st))) -> code <> 404) /\
  db (snd (router_delete req st)) = snd (destroy (where_guid (params_guid req)) (db st)) /\
  (forall code b, In (code, b) (res_calls (snd (router_patch req st))) -> code <> 404).
Proof.
  apply (delete_and_patch_never_404
           (mkRequest [] [("description", JStr "x")] "no-such-guid")
           Examples.one_bookmark).
  reflexivity.
Defined.

(** ** The link validator *)

(** The three validators on a link that is a string: [presence] passes, the
    [url] validator reports when the pattern fails, [exclusion] reports when
    the string is a key of [within]; the reports come in that order, and
    nothing throws. *)
Lemma validate_link_string (b : JsObject) (s : string) :
  field b "link" = JStr s ->
  validate_link b =
    Normal
      match
        ((if url_shaped s then [] else [invalid_link_error]) ++
         (if ValidateJs.has_key
               [("http://yahoo.com", JStr "Yahoo"); ("https://yahoo.com", JStr "Yahoo");
                ("http://socket.io", JStr "Socket.io");
                ("https://socket.io", JStr "Socket.io")]
               s
          then [blocked_domain_error] else []))%list
      with
      | [] => JUndefined
      | errors => JObj [("link", JArr errors)]
      end.
Proof.
  intros Hlink.
  cbv [validate_link ValidateJs.validate ValidateJs.grouped
       ValidateJs.attribute_errors bookmarkLinkConstraints
       ValidateJs.run_validator ValidateJs.presence_validator
       ValidateJs.url_validator ValidateJs.exclusion_validator
       ValidateJs.contains].
  rewrite Hlink.
  cbn [ValidateJs.isDefined negb to_property_key].
  fold (url_shaped s).
  destruct (url_shaped s); destruct (ValidateJs.has_key _ s); reflexivity.
Qed.

Lemma validate_link_absent (b : JsObject) :
  field b "link" = JUndefined ->
  validate_link b = Normal (JObj [("link", JArr [JStr "Link can't be blank"])]).
Proof.
  intros Hlink.
  cbv [validate_link ValidateJs.validate ValidateJs.grouped
       ValidateJs.attribute_errors bookmarkLinkConstraints
       ValidateJs.run_validator ValidateJs.presence_validator
       ValidateJs.url_validator ValidateJs.exclusion_validator].
  rewrite Hlink. reflexivity.
Qed.

Lemma banned_links_are_url_shaped (s : string) :
  In s banned_links -> url_shaped s = true.
Proof.
  intros H. repeat (destruct H as [<-|H]; [vm_compute; reflexivity|]). destruct H.
Qed.

Lemma prototype_keys_are_not_url_shaped (s : string) :
  In s ValidateJs.object_prototype_keys -> url_shaped s = false.
Proof.
  intros H. repeat (destruct H as [<-|H]; [vm_compute; reflexivity|]). destruct H.
Qed.

Lemma contains_banned (s : string) :
  ValidateJs.has_key
    [("http://yahoo.com", JStr "Yahoo"); ("https://yahoo.com", JStr "Yahoo");
     ("http://socket.io", JStr "Socket.io"); ("https://socket.io", JStr "Socket.io")]
    s = true <->
  In s banned_links \/ In s ValidateJs.object_prototype_keys.
Proof.
  unfold ValidateJs.has_key.
  rewrite orb_true_iff, hasOwnProperty_In, existsb_exists.
  split; (intros [H|H]; [left; exact H | right]).
  - destruct H as (k & Hin & Heq). apply String.eqb_eq in Heq. now subst.
  - exists s. split; [exact H | apply String.eqb_refl].
Qed.

(** C5.  What the code does with an absent link: the [presence] constraint
    has no message of its own, unlike the [url] and [exclusion] constraints
    beside it, so the error reported is the plain string of validate.js,
    which carries no code; the create handler answers 400 with that string
    in place of a [{code, description}] object. *)
Lemma absent_link_has_no_code :
  first_link_error (validate_link []) = Normal (JStr "Link can't be blank") /\
  error_code (validate_link []) <> Some "BOOKMARKS_INVALID_LINK" /\
  response (snd (router_post (mkRequest [] [] "") (MemoryStore.loaded Examples.t0))) =
    Some (400, JObj [("errors", JObj [("validation", JStr "Link can't be blank")])]).
Proof.
  vm_compute. repeat split; discriminate.
Qed.

(** X17.  For every link that is a string, nothing throws and the verdict
    is: code BOOKMARKS_INVALID_LINK when the string is empty or fails the
    URL-shape check; code BOOKMARKS_BLOCKED_DOMAIN when it is one of the
    four banned literals; acceptance for every other non-empty URL-shaped
    string. *)
Theorem string_link_verdicts (b : JsObject) (s : string) :
  field b "link" = JStr s ->
  (s = "" \/ url_shaped s = false ->
   first_link_error (validate_link b) = Normal invalid_link_error /\
   error_code (validate_link b) = Some "BOOKMARKS_INVALID_LINK") /\
  (In s banned_links ->
   first_link_error (validate_link b) = Normal blocked_domain_error /\
   error_code (validate_link b) = Some "BOOKMARKS_BLOCKED_DOMAIN") /\
  (s <> "" -> url_shaped s = true -> ~ In s banned_links ->
   validate_link b = Normal JUndefined).
Proof.
  intros Hlink. rewrite (validate_link_string b s Hlink).
  split; [|split].
  - intros Hbad.
    assert (Hshape : url_shaped s = false)
      by (destruct Hbad as [->|H]; [vm_compute; reflexivity | exact H]).
    rewrite Hshape. destruct (ValidateJs.has_key _ s); split; reflexivity.
  - intros Hbanned.
    rewrite (banned_links_are_url_shaped s Hbanned).
    assert (Hin : ValidateJs.has_key
              [("http://yahoo.com", JStr "Yahoo"); ("https://yahoo.com", JStr "Yahoo");
               ("http://socket.io", JStr "Socket.io");
               ("https://socket.io", JStr "Socket.io")] s = true)
      by (apply contains_banned; now left).
    rewrite Hin. split; reflexivity.
  - intros _ Hshape Hnot. rewrite Hshape.
    destruct (ValidateJs.has_key _ s) eqn:Hin; [|reflexivity].
    apply contains_banned in Hin. destruct Hin as [Hin|Hin]; [contradiction|].
    apply prototype_keys_are_not_url_shaped in Hin. congruence.
Qed.

Lemma string_link_verdicts_witness :
  (first_link_error (validate_link [("link", JStr "")]) = Normal invalid_link_error /\
   error_code (validate_link [("link", JStr "")]) = Some "BOOKMARKS_INVALID_LINK") /\
  (first_link_error (validate_link [("link", JStr "not a link")]) =
     Normal invalid_link_error /\
   error_code (validate_link [("link", JStr "not a link")]) =
     Some "BOOKMARKS_INVALID_LINK") /\
  (first_link_error (validate_link [("link", JStr "https://socket.io")]) =
     Normal blocked_domain_error /\
   error_code (validate_link [("link", JStr "https://socket.io")]) =
     Some "BOOKMARKS_BLOCKED_DOMAIN") /\
  validate_link [("link", JStr "https://example.com")] = Normal JUndefined.
Proof.
  split; [|split; [|split]].
  - apply (string_link_verdicts [("link", JStr "")] "" eq_refl). left; reflexivity.
  - apply (string_link_verdicts [("link", JStr "not a link")] "not a link" eq_refl).
    right; vm_compute; reflexivity.
  - apply (string_link_verdicts [("link", JStr "https://socket.io")]
             "https://socket.io" eq_refl).
    simpl; tauto.
  - apply (string_link_verdicts [("link", JStr "https://example.com")]
             "https://example.com" eq_refl).
    + discriminate.
    + vm_compute; reflexivity.
    + simpl; intuition discriminate.
Defined.

(** ** The create handler *)

(** C6.  [POST /] with a valid link and no other body field calls [create]
    with that link, [description] the empty string, [favorites] false and
    [createdAt] the clock reading of the call; when the store resolves with
    the new record, the handler answers 200 and the body holds exactly that
    record's [guid] and [createdAt]. *)
Theorem create_with_link_only {DB : Type} {orm : Orm DB}
    (qry : JsObject) (guid s : string) (st : State DB) (record : JsObject) (d' : DB) :
  res_calls st = [] ->
  validate_link [("link", JStr s)] = Normal JUndefined ->
  create (JObj [("link", JStr s); ("description", JStr "");
                ("favorites", JBool false); ("createdAt", JNum (clock st))])
         (db st) = (Fulfilled (JObj record), d') ->
  router_post (mkRequest qry [("link", JStr s)] guid) st =
    (Normal JUndefined,
     mkState (defaultQueryParams st) d' (clock st)
       [(200, JObj [("data", JObj [("guid", field record "guid");
                                   ("createdAt", field record "createdAt")])])]
       (console st)).
Proof.
  intros Hres Hvalid Hcreate.
  unfold router_post. cbn [body]. rewrite Hvalid.
  unfold lift, try_catch, bind, date_now, await_write, create_values, js_or, field; simpl.
  rewrite Hcreate; simpl.
  unfold res_status_json; simpl. rewrite Hres. reflexivity.
Qed.

Lemma create_with_link_only_witness :
  let row := [("guid", JStr Examples.the_guid); ("link", JStr "https://example.com");
              ("createdAt", JNum Examples.t0); ("updatedAt", JNull);
              ("description", JStr ""); ("favorites", JBool false)] in
  let st := MemoryStore.loaded Examples.t0 in
  router_post Examples.post_example st =
    (Normal JUndefined,
     mkState (defaultQueryParams st)
       (MemoryStore.mkTable (MemoryStore.model (db st)) [row]) (clock st)
       [(200, JObj [("data", JObj [("guid", field row "guid");
                                   ("createdAt", field row "createdAt")])])]
       (console st)).
Proof.
  intros row st.
  apply (create_with_link_only [] "" "https://example.com" st row
           (MemoryStore.mkTable (MemoryStore.model (db st)) [row])).
  - reflexivity.
  - vm_compute. reflexivity.
  - vm_compute. reflexivity.
Defined.

(** ** Identifiers *)

(** C7.  What the code does: the default of [guid] is the one string
    [uuid()] returned when the model was defined, so any two records built
    from the values the create handler passes carry the same [guid]. *)
Theorem default_guid_is_shared {G : Type} (uuid : G -> string * G) (g : G)
    (b1 b2 : JsObject) (now1 now2 : Z) :
  let model := fst (BookmarksModel.define_bookmarks uuid g) in
  field (BookmarksModel.build model (create_values b1 now1)) "guid" = JStr (fst (uuid g)) /\
  field (BookmarksModel.build model (create_values b2 now2)) "guid" =
  field (BookmarksModel.build model (create_values b1 now1)) "guid".
Proof.
  unfold BookmarksModel.define_bookmarks.
  destruct (uuid g) as [id g']. split; reflexivity.
Qed.

(** Two creates in a row on the in-memory store, with a generator that
    would never repeat itself: the first record takes the default guid, the
    second create takes the same one, violates the primary key and is
    answered 400. *)
Example second_create_collides :
  let first := router_post Examples.post_example (MemoryStore.loaded Examples.t0) in
  let second :=
    router_post (mkRequest [] [("link", JStr "https://example.org")] "")
                (MemoryStore.next_request (Examples.t0 + 100) (snd first)) in
  fst (MemoryStore.counter_uuid 1) <> fst (MemoryStore.counter_uuid 2) /\
  response (snd first) =
    Some (200, JObj [("data", JObj [("guid", JStr Examples.the_guid);
                                    ("createdAt", JNum Examples.t0)])]) /\
  response (snd second) =
    Some (400, JObj [("errors", JObj [("backend", JStr "Can't create bookmark!")])]) /\
  console (snd second) = [StoreError "Validation error: primary key must be unique"] /\
  List.length (MemoryStore.rows (db (snd second))) = 1%nat.
Proof.
  vm_compute. repeat split; discriminate.
Qed.

(** ** The list handler on zero matches *)

(** C8.  When the count of matching records is zero the list handler calls
    [res.status(401).json] with a bookmarks-scoped error and, in the same
    invocation, goes on to [res.status(200).json(result)].  The client has
    the 401; the second call throws inside the [try] statement, whose
    handler attempts a 400 in turn, and the handler ends with that error. *)
Theorem list_zero_matches_401_then_200 {DB : Type} {orm : Orm DB}
    (req : Request) (st : State DB) (queryParams : JsObject)
    (whereClause data : JsValue) :
  res_calls st = [] ->
  explodeRequestQuery (defaultQueryParams st) (query req) =
    JObj [("query", JObj queryParams); ("where", whereClause)] ->
  findAll (findAll_options (object_assign (defaultQueryParams st) queryParams) whereClause)
          (db st) = Fulfilled data ->
  count (count_options whereClause) (db st) = Fulfilled 0 ->
  response (snd (router_get req st)) =
    Some (401, JObj [("errors",
                      JObj [("bookmarks", JStr "No bookmark found with this query!")])]) /\
  res_calls (snd (router_get req st)) =
    [(401, JObj [("errors",
                  JObj [("bookmarks", JStr "No bookmark found with this query!")])]);
     (200, JObj [("length", JNum 0); ("data", data)]);
     (400, JObj [("errors", JObj [("backend", JArr [JStr "Can't get bookmarks"])])])] /\
  fst (router_get req st) = Throw HeadersSentError.
Proof.
  intros Hres Hexploded Hfind Hcount.
  unfold response, router_get, bind, read_defaultQueryParams, lift.
  rewrite Hexploded; simpl.
  unfold router_get_try, try_catch, bind, await_read, when; simpl.
  rewrite Hfind, Hcount; simpl. rewrite andb_false_r.
  unfold res_status_json, console_log, ret; simpl. rewrite Hres; simpl.
  repeat split.
Qed.

Lemma list_zero_matches_401_then_200_witness :
  let req := mkRequest [("link", JStr "https://nowhere.example")] [] "" in
  let st := Examples.one_bookmark in
  response (snd (router_get req st)) =
    Some (401, JObj [("errors",
                      JObj [("bookmarks", JStr "No bookmark found with this query!")])]) /\
  res_calls (snd (router_get req st)) =
    [(401, JObj [("errors",
                  JObj [("bookmarks", JStr "No bookmark found with this query!")])]);
     (200, JObj [("length", JNum 0); ("data", JArr [])]);
     (400, JObj [("errors", JObj [("backend", JArr [JStr "Can't get bookmarks"])])])] /\
  fst (router_get req st) = Throw HeadersSentError.
Proof.
  apply (list_zero_matches_401_then_200
           (mkRequest [("link", JStr "https://nowhere.example")] [] "")
           Examples.one_bookmark []
           (JObj [("link", JStr "https://nowhere.example")]) (JArr [])).
  - reflexivity.
  - reflexivity.
  - vm_compute. reflexivity.
  - vm_compute. reflexivity.
Defined.

(** ** Module-level state *)

(** C9.  What the code does: [Object.assign] has [defaultQueryParams] as its
    target, so a list request with [limit=5] leaves the module-level
    defaults with [limit] equal to the string [5] in place of 50, whatever
    the store answers. *)
Theorem list_request_overwrites_defaults {DB : Type} {orm : Orm DB}
    (d : DB) (now : Z) (b : JsObject) (guid : string) :
  defaultQueryParams
    (snd (router_get (mkRequest [("limit", JStr "5")] b guid)
                     (mkState initial_defaultQueryParams d now [] []))) =
  [("limit", JStr "5"); ("offset", JNum 0);
   ("sort_by", JStr "createdAt"); ("sort_dir", JStr "asc")].
Proof.
  unfold router_get, bind, read_defaultQueryParams, lift,
    assign_defaultQueryParams, ret; simpl.
  match goal with
  | |- context [router_get_try ?q ?w ?s] =>
      pose proof (router_get_try_keeps_defaults q w s) as Hkeep;
      destruct (router_get_try q w s) as [[u|e] st']
  end; simpl in *; exact Hkeep.
Qed.

(** The request after that one is served with the overwritten default: the
    options handed to [findAll] carry [limit] as left by the previous
    request. *)
Example next_list_request_sees_overwritten_limit :
  let st1 := snd (router_get (mkRequest [("limit", JStr "5")] [] "") Examples.one_bookmark) in
  let st2 := MemoryStore.next_request (Examples.t0 + 200) st1 in
  field (defaultQueryParams Examples.one_bookmark) "limit" = JNum 50 /\
  field (defaultQueryParams st2) "limit" = JStr "5" /\
  field (object_assign (defaultQueryParams st2) [("offset", JStr "0")]) "limit" = JStr "5".
Proof. vm_compute. repeat split. Qed.

(** ** PATCH with an empty link *)

(** C10.  In the patch handler a body whose [link] is the empty string
    skips validation, although the validator rejects that link with
    BOOKMARKS_INVALID_LINK: the handler passes the body, empty link
    included, to [update], and the outcome of [update] alone decides the
    response. *)
Theorem patch_empty_link_skips_validation {DB : Type} {orm : Orm DB}
    (req : Request) (st : State DB) :
  res_calls st = [] ->
  field (body req) "link" = JStr "" ->
  first_link_error (validate_link (body req)) = Normal invalid_link_error /\
  router_patch req st =
    patch_outcome st (update (JObj (body req)) (where_guid (params_guid req)) (db st)) /\
  db (snd (router_patch req st)) =
    snd (update (JObj (body req)) (where_guid (params_guid req)) (db st)).
Proof.
  intros Hres Hlink.
  assert (Hrun : router_patch req st =
                 patch_outcome st
                   (update (JObj (body req)) (where_guid (params_guid req)) (db st))).
  { rewrite (router_patch_run req st Hres), Hlink. reflexivity. }
  split; [|split; [exact Hrun|]].
  - rewrite (validate_link_string (body req) "" Hlink).
    replace (url_shaped "") with false by (vm_compute; reflexivity).
    destruct (ValidateJs.has_key _ ""); reflexivity.
  - rewrite Hrun. unfold patch_outcome.
    destruct (update _ _ (db st)) as [[q|e] d']; reflexivity.
Qed.

Lemma patch_empty_link_skips_validation_witness :
  let req := mkRequest [] [("link", JStr "")] Examples.the_guid in
  let st := Examples.one_bookmark in
  (first_link_error (validate_link (body req)) = Normal invalid_link_error /\
   router_patch req st =
     patch_outcome st (update (JObj (body req)) (where_guid (params_guid req)) (db st)) /\
   db (snd (router_patch req st)) =
     snd (update (JObj (body req)) (where_guid (params_guid req)) (db st))) /\
  response (snd (router_patch req st)) = Some ok_200 /\
  map (fun row => field row "link") (MemoryStore.rows (db (snd (router_patch req st)))) =
    [JStr ""].
Proof.
  split.
  - apply (patch_empty_link_skips_validation
             (mkRequest [] [("link", JStr "")] Examples.the_guid)
             Examples.one_bookmark); reflexivity.
  - vm_compute. split; reflexivity.
Defined.

(** * Further properties of the handlers *)

(** ** The query splitter on any input *)

(** X1.  On any input, well formed or not, and whatever the defaults hold:
    the empty mapping gives [undefined]; any other gives two buckets that
    together hold at most one entry, every entry being an entry of the
    input, the control bucket holding only keys the defaults own and the
    filter bucket only keys they do not own.  So an input made of control
    keys only gives an empty filter. *)
Theorem explodeRequestQuery_partition (defaults obj : JsObject) :
  match obj with
  | [] => explodeRequestQuery defaults obj = JUndefined
  | _ :: _ =>
      exists queryParams whereClause,
        explodeRequestQuery defaults obj =
          JObj [("query", JObj queryParams); ("where", JObj whereClause)] /\
        (forall k v, In (k, v) queryParams ->
                     hasOwnProperty defaults k = true /\ In (k, v) obj) /\
        (forall k v, In (k, v) whereClause ->
                     hasOwnProperty defaults k = false /\ In (k, v) obj) /\
        (List.length queryParams + List.length whereClause <= 1)%nat /\
        ((forall k, In k (map fst obj) -> hasOwnProperty defaults k = true) ->
         whereClause = [])
  end.
Proof.
  destruct obj as [|[key param] rest]; [reflexivity|].
  unfold explodeRequestQuery; simpl.
  destruct (hasOwnProperty defaults key) eqn:Hown;
    [exists (set_prop [] key param), [] | exists [], (set_prop [] key param)];
    (split; [reflexivity|]);
    unfold set_prop; destruct (key =? "__proto__")%string; simpl;
    repeat split; try lia; auto;
    try match goal with
        | H : False |- _ => destruct H
        | H : _ \/ False |- _ => destruct H as [H|[]]; inversion H; subst; auto
        end;
    intros Hall; specialize (Hall key (or_introl eq_refl)); congruence.
Qed.

(** ** What a list request does to the defaults *)

Lemma lookup_replace_prop_other (o : JsObject) (k k' : string) (v : JsValue) :
  k <> k' -> lookup (replace_prop o k v) k' = lookup o k'.
Proof.
  intros Hne. induction o as [|[k0 v0] o IH]; simpl; [reflexivity|].
  destruct (String.eqb_spec k0 k) as [->|Hk]; simpl.
  - destruct (String.eqb_spec k k'); [contradiction | reflexivity].
  - destruct (k0 =? k')%string; [reflexivity | exact IH].
Qed.

Lemma object_assign_singleton (d : JsObject) (k : string) (v : JsValue) :
  object_assign d (set_prop [] k v) = set_prop d k v.
Proof.
  unfold set_prop at 1.
  destruct (k =? "__proto__")%string eqn:Hk; simpl.
  - unfold set_prop. now rewrite Hk.
  - reflexivity.
Qed.

(** The defaults after a list request, whatever the store answers. *)
Lemma router_get_defaults {DB : Type} {orm : Orm DB} (req : Request) (st : State DB) :
  defaultQueryParams (snd (router_get req st)) =
  defaults_after (defaultQueryParams st) (query req).
Proof.
  unfold router_get, bind, read_defaultQueryParams, lift,
    assign_defaultQueryParams, ret, defaults_after.
  destruct (query req) as [|[key param] rest]; [reflexivity|].
  unfold explodeRequestQuery; simpl.
  destruct (hasOwnProperty (defaultQueryParams st) key); simpl;
    match goal with
    | |- context [router_get_try ?q ?w ?s] =>
        pose proof (router_get_try_keeps_defaults q w s) as Hkeep;
        destruct (router_get_try q w s) as [[u|e] st']
    end; simpl in *; rewrite Hkeep;
    first [apply object_assign_singleton | reflexivity].
Qed.

Lemma defaults_after_other_key (d qry : JsObject) (k : string) :
  hd_error (map fst qry) <> Some k ->
  lookup (defaults_after d qry) k = lookup d k.
Proof.
  destruct qry as [|[key param] rest]; simpl; [reflexivity|].
  intros Hne. assert (Hk : key <> k) by congruence.
  destruct (hasOwnProperty d key) eqn:Hown; [|reflexivity].
  unfold set_prop. destruct (key =? "__proto__")%string; [reflexivity|].
  rewrite Hown. now apply lookup_replace_prop_other.
Qed.

(** X2.  A list request changes [defaultQueryParams] in one way only: when
    the first key of the query is a key of the defaults, that default takes
    the value of the query; every other default keeps its value, and a
    request whose first key is a filter key, or that has no key, leaves the
    defaults as they were.  The answers of the store play no part. *)
Theorem list_request_defaults {DB : Type} {orm : Orm DB} (req : Request) (st : State DB) :
  defaultQueryParams (snd (router_get req st)) =
    match query req with
    | [] => defaultQueryParams st
    | (key, param) :: _ =>
        if hasOwnProperty (defaultQueryParams st) key
        then set_prop (defaultQueryParams st) key param
        else defaultQueryParams st
    end /\
  (forall k, hd_error (map fst (query req)) <> Some k ->
             lookup (defaultQueryParams (snd (router_get req st))) k =
             lookup (defaultQueryParams st) k).
Proof.
  rewrite router_get_defaults. split; [reflexivity|].
  intros k Hk. now apply defaults_after_other_key.
Qed.

(** X3.  Defaults accumulate over the life of the process: after any
    sequence of list requests, each on its own response object, the defaults
    are the initial ones overwritten by the first query key of every request
    in turn. *)
Theorem serve_lists_defaults {DB : Type} {orm : Orm DB}
    (reqs : list Request) (st : State DB) :
  defaultQueryParams (serve_lists reqs st) =
  fold_left defaults_after (map query reqs) (defaultQueryParams st).
Proof.
  revert st. induction reqs as [|req rest IH]; intros st; simpl; [reflexivity|].
  rewrite IH, router_get_defaults. reflexivity.
Qed.

(** Two requests in a row, for any values and any store: both overrides
    stay. *)
Example two_list_requests_accumulate {DB : Type} {orm : Orm DB}
    (v1 v2 : JsValue) (st : State DB) :
  defaultQueryParams st = initial_defaultQueryParams ->
  defaultQueryParams
    (serve_lists [mkRequest [("limit", v1)] [] ""; mkRequest [("sort_dir", v2)] [] ""] st) =
  [("limit", v1); ("offset", JNum 0); ("sort_by", JStr "createdAt"); ("sort_dir", v2)].
Proof.
  intros H. cbn [serve_lists].
  rewrite router_get_defaults. cbn [fresh_response defaultQueryParams].
  rewrite router_get_defaults. cbn [fresh_response defaultQueryParams].
  rewrite H. reflexivity.
Qed.

(** ** The response of the list handler *)

(** X4.  On a query that has at least one key and a fresh response object,
    the response the client receives is decided by the two store calls in
    order: 400 [Can't get bookmarks] when [findAll] is rejected, or when
    [count] is; 401 when the count is zero; 400 [Bad order request!] when
    the count is not zero and the page is falsy; 200 with the count and the
    page otherwise.  The handler ends without an error exactly when it
    called the response once. *)
Theorem list_response_by_store_answer {DB : Type} {orm : Orm DB}
    (req : Request) (st : State DB) (queryParams : JsObject) (whereClause : JsValue) :
  res_calls st = [] ->
  explodeRequestQuery (defaultQueryParams st) (query req) =
    JObj [("query", JObj queryParams); ("where", whereClause)] ->
  response (snd (router_get req st)) =
    Some
      match findAll (findAll_options (object_assign (defaultQueryParams st) queryParams)
                                     whereClause) (db st) with
      | Rejected _ => (400, cant_get_bookmarks)
      | Fulfilled data =>
          match count (count_options whereClause) (db st) with
          | Rejected _ => (400, cant_get_bookmarks)
          | Fulfilled amount =>
              if amount =? 0 then
                (401, JObj [("errors",
                             JObj [("bookmarks",
                                    JStr "No bookmark found with this query!")])])
              else if truthy data then
                (200, JObj [("length", JNum amount); ("data", data)])
              else
                (400, JObj [("errors", JObj [("backend", JStr "Bad order request!")])])
          end
      end /\
  (fst (router_get req st) = Normal JUndefined <->
   List.length (res_calls (snd (router_get req st))) = 1%nat).
Proof.
  intros Hres Hexploded.
  unfold response, router_get, bind, read_defaultQueryParams, lift.
  rewrite Hexploded; simpl.
  unfold router_get_try, try_catch, bind, await_read, when; simpl.
  destruct (findAll _ (db st)) as [data|e]; simpl.
  - destruct (count _ (db st)) as [amount|e]; simpl.
    + destruct (amount =? 0); destruct (truthy data); simpl;
        unfold res_status_json, console_log, ret; simpl; rewrite Hres; simpl;
        (split; [reflexivity | split; discriminate || reflexivity]).
    + unfold res_status_json, console_log, ret; simpl; rewrite Hres; simpl.
      split; [reflexivity | split; reflexivity].
  - unfold res_status_json, console_log, ret; simpl; rewrite Hres; simpl.
    split; [reflexivity | split; reflexivity].
Qed.

Lemma list_response_by_store_answer_witness :
  let req := mkRequest [("sort_dir", JStr "desc")] [] "" in
  let st := Examples.one_bookmark in
  response (snd (router_get req st)) =
    Some (200, JObj [("length", JNum 1);
                     ("data",
                      JArr [JObj [("guid", JStr Examples.the_guid);
                                  ("link", JStr "https://example.com");
                                  ("createdAt", JNum Examples.t0);
                                  ("updatedAt", JNull);
                                  ("description", JStr "");
                                  ("favorites", JBool false)]])]) /\
  (fst (router_get req st) = Normal JUndefined <->
   List.length (res_calls (snd (router_get req st))) = 1%nat).
Proof.
  exact (list_response_by_store_answer
           (mkRequest [("sort_dir", JStr "desc")] [] "") Examples.one_bookmark
           [("sort_dir", JStr "desc")] (JObj []) eq_refl eq_refl).
Defined.

(** ** What the other handlers leave alone *)

Section Frame.

Context {DB : Type} {orm : Orm DB}.

Lemma keeps_ret {A : Type} (a : A) : keeps_defaults (ret (DB := DB) a).
Proof. intros st; reflexivity. Qed.

Lemma keeps_lift {A : Type} (c : Completion A) : keeps_defaults (lift (DB := DB) c).
Proof. intros st; reflexivity. Qed.

Lemma keeps_bind {A B : Type} (m : M DB A) (k : A -> M DB B) :
  keeps_defaults m -> (forall a, keeps_defaults (k a)) -> keeps_defaults (bind m k).
Proof.
  intros Hm Hk st. unfold bind. specialize (Hm st).
  destruct (m st) as [[a|e] st']; simpl in *; [rewrite Hk|]; exact Hm.
Qed.

Lemma keeps_try_catch {A : Type} (m : M DB A) (handler : JsError -> M DB A) :
  keeps_defaults m -> (forall e, keeps_defaults (handler e)) ->
  keeps_defaults (try_catch m handler).
Proof.
  intros Hm Hh st. unfold try_catch. specialize (Hm st).
  destruct (m st) as [[a|e] st']; simpl in *; [|rewrite Hh]; exact Hm.
Qed.

Lemma keeps_await_write {A : Type} (op : DB -> Settled A * DB) :
  keeps_defaults (await_write op).
Proof. intros st. unfold await_write. destruct (op (db st)); reflexivity. Qed.

Lemma keeps_date_now : keeps_defaults (date_now (DB := DB)).
Proof. intros st; reflexivity. Qed.

Lemma keeps_console_log (e : JsError) : keeps_defaults (console_log (DB := DB) e).
Proof. intros st; reflexivity. Qed.

Lemma keeps_res_status_json (code : Z) (b : JsValue) :
  keeps_defaults (res_status_json (DB := DB) code b).
Proof. intros st. unfold res_status_json. destruct (res_calls st); reflexivity. Qed.

Lemma keeps_when (c : bool) (m : M DB unit) :
  keeps_defaults m -> keeps_defaults (when c m).
Proof. intros Hm. destruct c; [exact Hm | apply keeps_ret]. Qed.

Lemma keeps_call_chechGuidExistence (guid : string) :
  keeps_defaults (call_chechGuidExistence guid).
Proof. intros st; reflexivity. Qed.

End Frame.

Create HintDb keeps.
#[global] Hint Resolve keeps_ret keeps_lift keeps_await_write keeps_date_now
  keeps_console_log keeps_res_status_json keeps_when
  keeps_call_chechGuidExistence : keeps.

(** Walk through a handler written with [bind], [try_catch] and branches. *)
Ltac frame :=
  cbv zeta;
  repeat first
    [ solve [auto with keeps]
    | apply keeps_bind; [|intros ?]
    | apply keeps_try_catch; [|intros ?]
    | match goal with
      | |- keeps_defaults (if ?c then _ else _) => destruct c
      | |- keeps_defaults (match ?x with _ => _ end) => destruct x
      end ].

(** X5.  The create, update and delete handlers never write
    [defaultQueryParams]: on every path, failing ones included, the defaults
    after the request are the defaults before it.  The list handler is the
    only writer. *)
Theorem writes_keep_defaults {DB : Type} {orm : Orm DB} (req : Request) (st : State DB) :
  defaultQueryParams (snd (router_post req st)) = defaultQueryParams st /\
  defaultQueryParams (snd (router_patch req st)) = defaultQueryParams st /\
  defaultQueryParams (snd (router_delete req st)) = defaultQueryParams st.
Proof.
  assert (Hpost : keeps_defaults (router_post req)) by (unfold router_post; frame).
  assert (Hpatch : keeps_defaults (router_patch req)) by (unfold router_patch; frame).
  assert (Hdelete : keeps_defaults (router_delete req)) by (unfold router_delete; frame).
  repeat split; [apply Hpost | apply Hpatch | apply Hdelete].
Qed.

(** ** The existence check has no say *)

(** X6.  The outcome of DELETE and of PATCH does not depend on the count
    query behind [chechGuidExistence]: on two stores that answer [destroy]
    and [update] alike, whatever each answers to [count], both handlers end
    in the same state with the same response. *)
Theorem existence_check_is_never_consulted {DB : Type} (o1 o2 : Orm DB)
    (req : Request) (st : State DB) :
  same_writes o1 o2 ->
  @router_delete DB o1 req st = @router_delete DB o2 req st /\
  @router_patch DB o1 req st = @router_patch DB o2 req st.
Proof.
  intros [Hdestroy Hupdate]. split.
  - unfold router_delete, call_chechGuidExistence, bind, try_catch, await_write; simpl.
    rewrite Hdestroy. reflexivity.
  - unfold router_patch, call_chechGuidExistence, bind, when, ret; simpl.
    rewrite Hupdate. reflexivity.
Qed.

Lemma existence_check_is_never_consulted_witness :
  let req := mkRequest [] [("description", JStr "x")] Examples.the_guid in
  @chechGuidExistence _ Examples.count_fails_orm Examples.the_guid
     (db Examples.one_bookmark) = Rejected (StoreError "connection lost") /\
  @router_delete _ MemoryStore.memory_orm req Examples.one_bookmark =
    @router_delete _ Examples.count_fails_orm req Examples.one_bookmark /\
  @router_patch _ MemoryStore.memory_orm req Examples.one_bookmark =
    @router_patch _ Examples.count_fails_orm req Examples.one_bookmark.
Proof.
  split; [reflexivity|].
  apply (existence_check_is_never_consulted
           MemoryStore.memory_orm Examples.count_fails_orm
           (mkRequest [] [("description", JStr "x")] Examples.the_guid)
           Examples.one_bookmark).
  split; reflexivity.
Defined.

(** ** DELETE *)

(** X7.  On a fresh response object the delete handler ends without an
    error and answers exactly once, with 200 or 400; the answer is 200
    exactly when [destroy] resolves to a truthy value.  A [destroy] that
    resolves to 0, no row affected, is answered 400, not 404. *)
Theorem delete_answers_once {DB : Type} {orm : Orm DB} (req : Request) (st : State DB) :
  res_calls st = [] ->
  fst (router_delete req st) = Normal JUndefined /\
  (exists code b,
      res_calls (snd (router_delete req st)) = [(code, b)] /\
      (code = 200 \/ code = 400) /\
      (code = 200 <->
       exists q, fst (destroy (where_guid (params_guid req)) (db st)) = Fulfilled q /\
                 truthy q = true)) /\
  (fst (destroy (where_guid (params_guid req)) (db st)) = Fulfilled (JNum 0) ->
   response (snd (router_delete req st)) =
     Some (400, JObj [("errors", JObj [("backend", JStr "Can't delete boorkmark!")])])).
Proof.
  intros Hres. rewrite (router_delete_run req st Hres).
  destruct (destroy _ (db st)) as [[q|e] d']; simpl.
  - split; [reflexivity|]. split.
    + destruct (truthy q) eqn:Hq; eexists; eexists; (split; [reflexivity|]).
      * split; [now left|]. split; [intros _; exists q; now split | reflexivity].
      * split; [now right|]. split; [discriminate|].
        intros (q' & Heq & Hq'). inversion Heq; subst. congruence.
    + intros Heq. inversion Heq; subst. reflexivity.
  - split; [reflexivity|]. split; [|discriminate].
    eexists; eexists. split; [reflexivity|]. split; [now right|].
    split; [discriminate | intros (q' & Heq & _); discriminate].
Qed.

Lemma delete_answers_once_witness :
  let req := mkRequest [] [] "no-such-guid" in
  let st := Examples.one_bookmark in
  fst (router_delete req st) = Normal JUndefined /\
  (exists code b,
      res_calls (snd (router_delete req st)) = [(code, b)] /\
      (code = 200 \/ code = 400) /\
      (code = 200 <->
       exists q, fst (destroy (where_guid (params_guid req)) (db st)) = Fulfilled q /\
                 truthy q = true)) /\
  (fst (destroy (where_guid (params_guid req)) (db st)) = Fulfilled (JNum 0) ->
   response (snd (router_delete req st)) =
     Some (400, JObj [("errors", JObj [("backend", JStr "Can't delete boorkmark!")])])).
Proof.
  apply (delete_answers_once (mkRequest [] [] "no-such-guid") Examples.one_bookmark).
  reflexivity.
Defined.

(** ** The link validator on any body *)

(** A link that is not a string: [null] fails [presence]; any other fails
    the [url] validator, and [exclusion] then converts it to a key, which
    throws or adds its own report. *)
Lemma validate_link_not_a_string (b : JsObject) :
  match field b "link" with
  | JStr _ => True
  | JUndefined | JNull =>
      validate_link b = Normal (JObj [("link", JArr [JStr "Link can't be blank"])])
  | v =>
      match to_property_key v with
      | Throw e => validate_link b = Throw e
      | Normal k =>
          validate_link b =
            Normal (JObj [("link",
                           JArr (invalid_link_error ::
                                 if ValidateJs.has_key exclusion_within k
                                 then [blocked_domain_error] else []))])
      end
  end.
Proof.
  cbv [validate_link ValidateJs.validate ValidateJs.grouped
       ValidateJs.attribute_errors bookmarkLinkConstraints
       ValidateJs.run_validator ValidateJs.presence_validator
       ValidateJs.url_validator ValidateJs.exclusion_validator
       ValidateJs.contains exclusion_within].
  destruct (field b "link") as [| |x|n|s|o|l|p]; try exact I; try reflexivity;
    cbn [ValidateJs.isDefined negb];
    destruct (to_property_key _) as [k|e]; try reflexivity;
    destruct (ValidateJs.has_key _ k); reflexivity.
Qed.

(** Only an object or an array can fail to convert to a key. *)
Lemma to_property_key_throws (v : JsValue) (e : JsError) :
  to_property_key v = Throw e ->
  match v with JObj _ | JArr _ => True | _ => False end.
Proof.
  destruct v as [| |x|n|s|o|l|p]; simpl; try discriminate; auto.
Qed.

(** [validate] throws, or passes, or returns the shape the handlers read,
    with one of three errors in front. *)
Lemma validate_link_cases (b : JsObject) :
  (exists e, validate_link b = Throw e /\ to_property_key (field b "link") = Throw e) \/
  validate_link b = Normal JUndefined \/
  exists e es,
    validate_link b = Normal (JObj [("link", JArr (e :: es))]) /\
    (e = JStr "Link can't be blank" \/ e = invalid_link_error \/ e = blocked_domain_error).
Proof.
  pose proof (validate_link_not_a_string b) as H.
  destruct (field b "link") as [| |x|n|s|o|l|p] eqn:Hlink;
    try (right; right; rewrite H; eauto 6);
    try (destruct (to_property_key _) as [k|e];
         [right; right; rewrite H; eauto 6 | left; exists e; auto]).
  rewrite (validate_link_string b s Hlink).
  destruct (url_shaped s); destruct (ValidateJs.has_key _ s); simpl;
    [right; right | right; left | right; right | right; right]; eauto 7.
Qed.

(** A link on which [validate] throws is an object or an array, hence
    truthy. *)
Lemma validate_link_throws (b : JsObject) (e : JsError) :
  validate_link b = Throw e ->
  to_property_key (field b "link") = Throw e /\ truthy (field b "link") = true.
Proof.
  intros Hthrow.
  destruct (validate_link_cases b) as [(e' & H & Hkey)|[H|(x & es & H & _)]];
    rewrite H in Hthrow; inversion Hthrow; subst.
  split; [exact Hkey|].
  apply to_property_key_throws in Hkey.
  destruct (field b "link"); try contradiction; reflexivity.
Qed.

(** X9.  [validate] has three outcomes.  It throws a TypeError, which
    happens only for a link that is an object or an array and cannot be
    converted to a property key; or it passes; or it returns a truthy object
    whose [link] array is not empty, so that [validationResult.link[0]]
    does not throw, and the error in front is one of three: the string
    [Link can't be blank], the BOOKMARKS_INVALID_LINK object or the
    BOOKMARKS_BLOCKED_DOMAIN object. *)
Theorem validation_error_is_one_of_three (b : JsObject) :
  (exists e,
      validate_link b = Throw e /\
      to_property_key (field b "link") = Throw e /\
      match field b "link" with JObj _ | JArr _ => True | _ => False end) \/
  validate_link b = Normal JUndefined \/
  (exists v,
      validate_link b = Normal v /\ truthy v = true /\
      exists e,
        first_link_error (validate_link b) = Normal e /\
        (e = JStr "Link can't be blank" \/ e = invalid_link_error \/
         e = blocked_domain_error)).
Proof.
  destruct (validate_link_cases b) as [(e & H & Hkey)|[H|(e & es & H & He)]].
  - left. exists e. repeat split; auto. now apply to_property_key_throws in Hkey.
  - right; now left.
  - right; right. rewrite H. eexists. split; [reflexivity|]. split; [reflexivity|].
    exists e. split; [reflexivity | exact He].
Qed.

(** X10.  A link that is not a string: [null] is treated as an absent link
    (the string [Link can't be blank], no code); a boolean or a number fails
    with code BOOKMARKS_INVALID_LINK; an object or an array makes [validate]
    throw when its conversion to a property key throws, and fails with code
    BOOKMARKS_INVALID_LINK otherwise. *)
Theorem link_that_is_not_a_string (b : JsObject) :
  match field b "link" with
  | JStr _ => True
  | JUndefined | JNull =>
      first_link_error (validate_link b) = Normal (JStr "Link can't be blank") /\
      error_code (validate_link b) = None
  | JBool _ | JNum _ =>
      first_link_error (validate_link b) = Normal invalid_link_error /\
      error_code (validate_link b) = Some "BOOKMARKS_INVALID_LINK"
  | v =>
      match to_property_key v with
      | Throw e => validate_link b = Throw e
      | Normal _ =>
          first_link_error (validate_link b) = Normal invalid_link_error /\
          error_code (validate_link b) = Some "BOOKMARKS_INVALID_LINK"
      end
  end.
Proof.
  pose proof (validate_link_not_a_string b) as H.
  destruct (field b "link") as [| |x|n|s|o|l|p]; try exact I;
    try (rewrite H; split; reflexivity);
    try (cbn [to_property_key] in H; rewrite H; split; reflexivity);
    (destruct (to_property_key _) as [k|e]; [rewrite H; split; reflexivity | exact H]).
Qed.

(** The same on three bodies: an array whose only element names a property
    of [Object.prototype] is reported as invalid and as banned; an object
    with an own [toString] makes [validate] throw, alone or inside an
    array. *)
Example object_and_array_links :
  validate_link [("link", JArr [JStr "toString"])] =
    Normal (JObj [("link", JArr [invalid_link_error; blocked_domain_error])]) /\
  validate_link [("link", unconvertible_link)] =
    Throw (TypeError "Cannot convert object to primitive value") /\
  validate_link [("link", JArr [unconvertible_link])] =
    Throw (TypeError "Cannot convert object to primitive value").
Proof. vm_compute. repeat split. Qed.

(** X18.  An error thrown by [validate] is not caught: both handlers call
    [validate] outside their [try] statement.  When the link cannot be
    converted to a property key, the create handler and the update handler
    end with that TypeError, send no response and leave the store, the
    defaults and the console as they were. *)
Theorem validate_error_escapes {DB : Type} {orm : Orm DB}
    (req : Request) (st : State DB) (e : JsError) :
  validate_link (body req) = Throw e ->
  router_post req st = (Throw e, st) /\ router_patch req st = (Throw e, st).
Proof.
  intros Hthrow.
  destruct (validate_link_throws (body req) e Hthrow) as [_ Htruthy].
  split.
  - unfold router_post, bind, lift. rewrite Hthrow. reflexivity.
  - unfold router_patch, bind, call_chechGuidExistence, when, ret, lift; simpl.
    rewrite Htruthy, Hthrow. reflexivity.
Qed.

Lemma validate_error_escapes_witness :
  let req := mkRequest [] [("link", unconvertible_link)] Examples.the_guid in
  let e := TypeError "Cannot convert object to primitive value" in
  router_post req Examples.one_bookmark = (Throw e, Examples.one_bookmark) /\
  router_patch req Examples.one_bookmark = (Throw e, Examples.one_bookmark).
Proof.
  apply (validate_error_escapes
           (mkRequest [] [("link", unconvertible_link)] Examples.the_guid)
           Examples.one_bookmark
           (TypeError "Cannot convert object to primitive value")).
  reflexivity.
Defined.

(** ** POST *)

(** A run of the create handler once validation has passed. *)
Lemma router_post_run {DB : Type} {orm : Orm DB} (req : Request) (st : State DB) :
  res_calls st = [] ->
  validate_link (body req) = Normal JUndefined ->
  router_post req st =
    match create (JObj (create_values (body req) (clock st))) (db st) with
    | (Fulfilled q, d') =>
        (Normal JUndefined,
         mkState (defaultQueryParams st) d' (clock st)
           [if truthy q
            then (200, JObj [("data", JObj [("guid", prop_of q "guid");
                                            ("createdAt", prop_of q "createdAt")])])
            else (400, cant_create_bookmark)]
           (console st))
    | (Rejected e, d') =>
        (Normal JUndefined,
         mkState (defaultQueryParams st) d' (clock st)
           [(400, cant_create_bookmark)] (console st ++ [e]))
    end.
Proof.
  intros Hres Hvalid.
  unfold router_post. rewrite Hvalid. open_handler.
  destruct (create _ (db st)) as [[q|e] d']; simpl.
  - destruct q as [| |x|n|s|o|l|p]; simpl;
      try destruct x; try destruct (n =? 0); try destruct (s =? "")%string;
      simpl; rewrite Hres; reflexivity.
  - rewrite Hres. reflexivity.
Qed.

(** X11.  A body on which [validate] returns a failure ends the create
    handler at once: the answer is 400 with the first validation error, the
    handler returns 0, and neither the store nor the console is touched. *)
Theorem post_invalid_link_halts {DB : Type} {orm : Orm DB}
    (req : Request) (st : State DB) (validationResult : JsValue) :
  res_calls st = [] ->
  validate_link (body req) = Normal validationResult ->
  validationResult <> JUndefined ->
  exists e,
    first_link_error (validate_link (body req)) = Normal e /\
    router_post req st =
      (Normal (JNum 0),
       mkState (defaultQueryParams st) (db st) (clock st)
         [(400, JObj [("errors", JObj [("validation", e)])])] (console st)).
Proof.
  intros Hres Hvalidate Hinvalid.
  destruct (validate_link_cases (body req)) as [(e & H & _)|[H|(e & es & H & _)]];
    [congruence | congruence |].
  exists e. unfold router_post. rewrite H. split; [reflexivity|].
  simpl. unfold bind, lift, res_status_json, ret; simpl. rewrite Hres. reflexivity.
Qed.

Lemma post_invalid_link_halts_witness :
  exists e,
    first_link_error (validate_link [("link", JStr "http://yahoo.com")]) = Normal e /\
    router_post (mkRequest [] [("link", JStr "http://yahoo.com")] "") Examples.one_bookmark =
      (Normal (JNum 0),
       mkState (defaultQueryParams Examples.one_bookmark) (db Examples.one_bookmark)
         (clock Examples.one_bookmark)
         [(400, JObj [("errors", JObj [("validation", e)])])]
         (console Examples.one_bookmark)).
Proof.
  apply (post_invalid_link_halts
           (mkRequest [] [("link", JStr "http://yahoo.com")] "") Examples.one_bookmark
           (JObj [("link", JArr [blocked_domain_error])])).
  - reflexivity.
  - vm_compute. reflexivity.
  - discriminate.
Defined.

(** X12.  Once validation has passed, the create handler hands [create] an
    object of exactly four keys, [link], [description], [favorites] and
    [createdAt], the last being the clock reading: a [guid], [createdAt] or
    [updatedAt] sent by the client does not reach the store.  The handler
    ends without an error and answers exactly once, 200 when [create]
    resolves to a truthy value and 400 otherwise. *)
Theorem post_answers_once {DB : Type} {orm : Orm DB} (req : Request) (st : State DB) :
  res_calls st = [] ->
  validate_link (body req) = Normal JUndefined ->
  map fst (create_values (body req) (clock st)) =
    ["link"; "description"; "favorites"; "createdAt"] /\
  field (create_values (body req) (clock st)) "createdAt" = JNum (clock st) /\
  fst (router_post req st) = Normal JUndefined /\
  db (snd (router_post req st)) =
    snd (create (JObj (create_values (body req) (clock st))) (db st)) /\
  exists code b,
    res_calls (snd (router_post req st)) = [(code, b)] /\
    (code = 200 \/ code = 400) /\
    (code = 200 <->
     exists q, fst (create (JObj (create_values (body req) (clock st))) (db st)) =
                 Fulfilled q /\ truthy q = true).
Proof.
  intros Hres Hvalid. rewrite (router_post_run req st Hres Hvalid).
  split; [reflexivity|]. split; [reflexivity|].
  destruct (create _ (db st)) as [[q|e] d']; simpl.
  - split; [reflexivity|]. split; [reflexivity|].
    destruct (truthy q) eqn:Hq; eexists; eexists; (split; [reflexivity|]).
    + split; [now left|]. split; [intros _; exists q; now split | reflexivity].
    + split; [now right|]. split; [discriminate|].
      intros (q' & Heq & Hq'). inversion Heq; subst. congruence.
  - split; [reflexivity|]. split; [reflexivity|].
    eexists; eexists. split; [reflexivity|]. split; [now right|].
    split; [discriminate | intros (q' & Heq & _); discriminate].
Qed.

Lemma post_answers_once_witness :
  let req := mkRequest []
               [("link", JStr "https://example.org"); ("guid", JStr "chosen-by-client");
                ("createdAt", JNum 1); ("favorites", JNum 1)] "" in
  let st := MemoryStore.loaded Examples.t0 in
  map fst (create_values (body req) (clock st)) =
    ["link"; "description"; "favorites"; "createdAt"] /\
  field (create_values (body req) (clock st)) "createdAt" = JNum (clock st) /\
  fst (router_post req st) = Normal JUndefined /\
  db (snd (router_post req st)) =
    snd (create (JObj (create_values (body req) (clock st))) (db st)) /\
  exists code b,
    res_calls (snd (router_post req st)) = [(code, b)] /\
    (code = 200 \/ code = 400) /\
    (code = 200 <->
     exists q, fst (create (JObj (create_values (body req) (clock st))) (db st)) =
                 Fulfilled q /\ truthy q = true).
Proof.
  apply (post_answers_once
           (mkRequest []
              [("link", JStr "https://example.org"); ("guid", JStr "chosen-by-client");
               ("createdAt", JNum 1); ("favorites", JNum 1)] "")
           (MemoryStore.loaded Examples.t0)).
  - reflexivity.
  - vm_compute. reflexivity.
Defined.

(** ** PATCH *)

(** X13.  A truthy link on which [validate] returns a failure ends the
    update handler before [update] is called: the answer is 400 with the
    first validation error, the handler returns 0, and the store is as it
    was. *)
Theorem patch_invalid_link_halts {DB : Type} {orm : Orm DB}
    (req : Request) (st : State DB) (validationResult : JsValue) :
  res_calls st = [] ->
  truthy (field (body req) "link") = true ->
  validate_link (body req) = Normal validationResult ->
  validationResult <> JUndefined ->
  exists e,
    first_link_error (validate_link (body req)) = Normal e /\
    router_patch req st =
      (Normal (JNum 0),
       mkState (defaultQueryParams st) (db st) (clock st)
         [(400, JObj [("errors", JObj [("validation", e)])])] (console st)).
Proof.
  intros Hres Hlink Hvalidate Hinvalid.
  destruct (validate_link_cases (body req)) as [(e & H & _)|[H|(e & es & H & _)]];
    [congruence | congruence |].
  exists e. rewrite (router_patch_run req st Hres), Hlink, H. split; reflexivity.
Qed.

Lemma patch_invalid_link_halts_witness :
  exists e,
    first_link_error (validate_link [("link", JStr "https://socket.io")]) = Normal e /\
    router_patch (mkRequest [] [("link", JStr "https://socket.io")] Examples.the_guid)
                 Examples.one_bookmark =
      (Normal (JNum 0),
       mkState (defaultQueryParams Examples.one_bookmark) (db Examples.one_bookmark)
         (clock Examples.one_bookmark)
         [(400, JObj [("errors", JObj [("validation", e)])])]
         (console Examples.one_bookmark)).
Proof.
  apply (patch_invalid_link_halts
           (mkRequest [] [("link", JStr "https://socket.io")] Examples.the_guid)
           Examples.one_bookmark
           (JObj [("link", JArr [blocked_domain_error])])).
  - reflexivity.
  - reflexivity.
  - vm_compute. reflexivity.
  - discriminate.
Defined.

(** X14.  The update handler validates a link only when it is truthy.  Any
    falsy link in the body ([null], [false], 0 or the empty string) goes to
    [update] with the rest of the body, unvalidated, although the validator
    rejects every one of them; only an absent link is both skipped and
    nothing to validate. *)
Theorem patch_falsy_link_is_not_validated {DB : Type} {orm : Orm DB}
    (req : Request) (st : State DB) :
  res_calls st = [] ->
  truthy (field (body req) "link") = false ->
  router_patch req st =
    patch_outcome st (update (JObj (body req)) (where_guid (params_guid req)) (db st)) /\
  (field (body req) "link" <> JUndefined ->
   exists validationResult,
     validate_link (body req) = Normal validationResult /\
     validationResult <> JUndefined).
Proof.
  intros Hres Hfalsy. split.
  - rewrite (router_patch_run req st Hres), Hfalsy. reflexivity.
  - intros Hdefined.
    pose proof (validate_link_not_a_string (body req)) as H.
    destruct (field (body req) "link") as [| |x|n|s|o|l|p] eqn:Hlink;
      try congruence; try discriminate;
      try (cbn [to_property_key] in H; rewrite H; eexists; split;
           [reflexivity | discriminate]).
    simpl in Hfalsy. apply negb_false_iff, String.eqb_eq in Hfalsy. subst s.
    rewrite (validate_link_string (body req) "" Hlink).
    replace (url_shaped "") with false by (vm_compute; reflexivity).
    destruct (ValidateJs.has_key _ ""); eexists; (split; [reflexivity | discriminate]).
Qed.

Lemma patch_falsy_link_is_not_validated_witness :
  let req := mkRequest [] [("link", JNum 0); ("favorites", JBool true)] Examples.the_guid in
  let st := Examples.one_bookmark in
  router_patch req st =
    patch_outcome st (update (JObj (body req)) (where_guid (params_guid req)) (db st)) /\
  (field (body req) "link" <> JUndefined ->
   exists validationResult,
     validate_link (body req) = Normal validationResult /\
     validationResult <> JUndefined).
Proof.
  apply (patch_falsy_link_is_not_validated
           (mkRequest [] [("link", JNum 0); ("favorites", JBool true)] Examples.the_guid)
           Examples.one_bookmark); reflexivity.
Defined.

(** X15.  On a fresh response object the update handler has two ways to
    end.  When [validate] throws, which takes a link that is an object or an
    array, the handler ends with that error, answers nothing and leaves the
    state as it was.  Otherwise it ends without an error and answers exactly
    once, with 200 or 400; the answer is 200 exactly when the link check
    lets the request through (the link is falsy or passes validation) and
    [update] resolves to a truthy value. *)
Theorem patch_answers_once {DB : Type} {orm : Orm DB} (req : Request) (st : State DB) :
  res_calls st = [] ->
  match validate_link (body req) with
  | Throw e => router_patch req st = (Throw e, st)
  | Normal validationResult =>
      (exists v, fst (router_patch req st) = Normal v) /\
      exists code b,
        res_calls (snd (router_patch req st)) = [(code, b)] /\
        (code = 200 \/ code = 400) /\
        (code = 200 <->
         truthy (field (body req) "link") && truthy validationResult = false /\
         exists q, fst (update (JObj (body req)) (where_guid (params_guid req)) (db st)) =
                     Fulfilled q /\ truthy q = true)
  end.
Proof.
  intros Hres. rewrite (router_patch_run req st Hres).
  assert (Hupdate :
    forall c : bool, c = false ->
      (exists v, fst (patch_outcome st
                        (update (JObj (body req)) (where_guid (params_guid req)) (db st))) =
                 Normal v) /\
      exists code b,
        res_calls (snd (patch_outcome st
                          (update (JObj (body req)) (where_guid (params_guid req))
                                  (db st)))) = [(code, b)] /\
        (code = 200 \/ code = 400) /\
        (code = 200 <->
         c = false /\
         exists q, fst (update (JObj (body req)) (where_guid (params_guid req)) (db st)) =
                     Fulfilled q /\ truthy q = true)).
  { intros c Hc. unfold patch_outcome.
    destruct (update _ _ (db st)) as [[q|e] d']; simpl.
    - split; [eexists; reflexivity|].
      destruct (truthy q) eqn:Hq; eexists; eexists; (split; [reflexivity|]).
      + split; [now left|].
        split; [intros _; split; [exact Hc | exists q; now split] | reflexivity].
      + split; [now right|]. split; [discriminate|].
        intros [_ (q' & Heq & Hq')]. inversion Heq; subst. congruence.
    - split; [eexists; reflexivity|].
      eexists; eexists. split; [reflexivity|]. split; [now right|].
      split; [discriminate | intros [_ (q' & Heq & _)]; discriminate]. }
  destruct (validate_link (body req)) as [v|e] eqn:Hvalidate.
  - destruct (truthy (field (body req) "link")) eqn:Hlink; [|now apply Hupdate].
    destruct (truthy v) eqn:Hv; [|now apply Hupdate].
    destruct (validate_link_cases (body req)) as [(e & H & _)|[H|(e & es & H & _)]];
      rewrite H in Hvalidate; inversion Hvalidate; subst; [discriminate|].
    simpl. split; [eexists; reflexivity|].
    eexists; eexists. split; [reflexivity|]. split; [now right|].
    split; [discriminate | intros [Hfalse _]; discriminate].
  - destruct (validate_link_throws (body req) e Hvalidate) as [_ Htruthy].
    rewrite Htruthy. reflexivity.
Qed.

Lemma patch_answers_once_witness :
  let req := mkRequest [] [("description", JStr "renamed")] "no-such-guid" in
  let st := Examples.one_bookmark in
  match validate_link (body req) with
  | Throw e => router_patch req st = (Throw e, st)
  | Normal validationResult =>
      (exists v, fst (router_patch req st) = Normal v) /\
      exists code b,
        res_calls (snd (router_patch req st)) = [(code, b)] /\
        (code = 200 \/ code = 400) /\
        (code = 200 <->
         truthy (field (body req) "link") && truthy validationResult = false /\
         exists q, fst (update (JObj (body req)) (where_guid (params_guid req)) (db st)) =
                     Fulfilled q /\ truthy q = true)
  end.
Proof.
  apply (patch_answers_once
           (mkRequest [] [("description", JStr "renamed")] "no-such-guid")
           Examples.one_bookmark).
  reflexivity.
Defined.

(** ** The block list is a list of exact strings *)

Lemma matches_Void (w : string) : Regex.matches Regex.Void w = false.
Proof. induction w; simpl; auto. Qed.

Lemma matches_Alt (w : string) :
  forall r s, Regex.matches (Regex.Alt r s) w = Regex.matches r w || Regex.matches s w.
Proof.
  induction w as [|a w IH]; intros r s; simpl; [reflexivity|].
  generalize (Regex.deriv a r) (Regex.deriv a s). intros r' s'.
  unfold Regex.alt.
  destruct r'; destruct s'; rewrite ?IH, ?matches_Void, ?orb_false_r; reflexivity.
Qed.

Lemma matches_alternative (r l : Regex.re) (w : string) :
  In l (alternatives r) -> Regex.matches l w = true -> Regex.matches r w = true.
Proof.
  induction r; simpl; intros Hin Hm; try (destruct Hin as [<-|[]]; exact Hm).
  rewrite matches_Alt. apply orb_true_iff.
  apply in_app_or in Hin. destruct Hin; [left | right]; auto.
Qed.

Lemma matches_derivs (s1 s2 : string) :
  forall r, Regex.matches r (s1 ++ s2) = Regex.matches (derivs r s1) s2.
Proof.
  induction s1 as [|a s1 IH]; intros r; simpl; [reflexivity|]. apply IH.
Qed.

Lemma matches_star_class (negated : bool) (ranges : list (nat * nat)) (p : string) :
  Forall (fun a => Regex.class_matches negated ranges a = true) (list_ascii_of_string p) ->
  Regex.matches (Regex.Star (Regex.Class negated ranges)) p = true.
Proof.
  induction p as [|a p IH]; simpl; intros H; [reflexivity|].
  inversion H as [|? ? Ha Hp]; subst. rewrite Ha. simpl. now apply IH.
Qed.

(** A banned literal followed by [/], [?] or [#] and anything free of white
    space matches the url pattern. *)
Lemma banned_with_suffix_is_url_shaped (banned sep p : string) :
  In banned banned_links -> In sep ["/"; "?"; "#"] -> no_white_space p ->
  url_shaped (banned ++ sep ++ p) = true.
Proof.
  intros Hb Hs Hp. unfold url_shaped.
  destruct Hb as [<-|[<-|[<-|[<-|[]]]]]; destruct Hs as [<-|[<-|[<-|[]]]];
    match goal with
    | |- Regex.matches ?r (?x ++ ?y ++ p) = true =>
        change (Regex.matches r ((x ++ y) ++ p) = true)
    end;
    rewrite matches_derivs;
    (apply (matches_alternative _
              (Regex.Star (Regex.Class true [(9, 13); (32, 32); (160, 160)]%nat)));
     [ apply (nth_error_In _ 2%nat); vm_compute; reflexivity
     | apply matches_star_class; exact Hp ]).
Qed.

Lemma banned_with_suffix_is_not_banned (banned sep p : string) :
  In banned banned_links -> In sep ["/"; "?"; "#"] ->
  ~ In (banned ++ sep ++ p) banned_links.
Proof.
  intros Hb Hs Hin.
  destruct Hb as [<-|[<-|[<-|[<-|[]]]]]; destruct Hs as [<-|[<-|[<-|[]]]];
    simpl in Hin; intuition discriminate.
Qed.

(** X16.  The block list bans four exact strings, not four sites: a banned
    literal followed by [/], [?] or [#] and any text free of white space is
    URL-shaped, is not on the list, and passes validation. *)
Theorem banned_link_with_a_suffix_is_accepted
    (b : JsObject) (banned sep p : string) :
  In banned banned_links -> In sep ["/"; "?"; "#"] -> no_white_space p ->
  field b "link" = JStr (banned ++ sep ++ p) ->
  validate_link b = Normal JUndefined.
Proof.
  intros Hb Hs Hp Hlink.
  rewrite (validate_link_string b _ Hlink).
  pose proof (banned_with_suffix_is_url_shaped banned sep p Hb Hs Hp) as Hshape.
  rewrite Hshape.
  destruct (ValidateJs.has_key _ (banned ++ sep ++ p)) eqn:Hin; [|reflexivity].
  apply contains_banned in Hin. destruct Hin as [Hin|Hin].
  - destruct (banned_with_suffix_is_not_banned banned sep p Hb Hs Hin).
  - apply prototype_keys_are_not_url_shaped in Hin. congruence.
Qed.

Lemma banned_link_with_a_suffix_is_accepted_witness :
  validate_link [("link", JStr "https://yahoo.com/mail?folder=inbox")] = Normal JUndefined.
Proof.
  apply (banned_link_with_a_suffix_is_accepted
           [("link", JStr "https://yahoo.com/mail?folder=inbox")]
           "https://yahoo.com" "/" "mail?folder=inbox").
  - simpl; tauto.
  - simpl; tauto.
  - unfold no_white_space. simpl. repeat constructor.
  - reflexivity.
Defined.
